(** * NewsWise front-end: REST client, chat fall-back rules and fund browser

    A shallow embedding of the TypeScript sources
    [src/services/api.ts] (the [api] object), the [ChatInterface] component
    ([processSpecificQuery], [searchWebForInfo], [handleSubmit]), the [Funds]
    component ([fetchFunds], [filteredFunds]) and the dashboard helper
    [generateDummyHistoricalData].

    Modelling conventions.
    - A JavaScript string is a [string] (a sequence of bytes; non-ASCII text is
      carried as its UTF-8 bytes).  [toLowerCase] and [toUpperCase] map the
      ASCII letters and leave every other byte alone, and the whitespace class
      [\s] is the ASCII one (tab, line feed, vertical tab, form feed, carriage
      return, space).  This is the behaviour of the JavaScript operations on
      ASCII text.
    - A JavaScript number is an exact rational ([Q]); rounding of IEEE doubles
      is not modelled.  [NaN] appears only as the result of a failed coercion
      and is [None].
    - The backend, [Math.random] and the clock are an explicit [World];
      asynchronous code is a state-and-exception monad over a trace of the
      requests sent and a cursor into the random stream.
    - The time zone of the browser is a parameter of the code that works
      with local dates: [getDate] and [setDate] read and write local time,
      [toISOString] prints UTC. *)

From Stdlib Require Import String Ascii List ZArith QArith Qround Qabs Lia Lqa Bool.
From Stdlib Require Import DecimalString.
Import ListNotations.
Open Scope string_scope.

(** ** JavaScript strings *)

Module JsString.

Definition is_upper (c : ascii) : bool :=
  let n := nat_of_ascii c in (65 <=? n)%nat && (n <=? 90)%nat.

Definition is_lower (c : ascii) : bool :=
  let n := nat_of_ascii c in (97 <=? n)%nat && (n <=? 122)%nat.

(** The class [\s], on ASCII. *)
Definition is_space (c : ascii) : bool :=
  let n := nat_of_ascii c in ((9 <=? n)%nat && (n <=? 13)%nat) || (n =? 32)%nat.

Definition lower_char (c : ascii) : ascii :=
  if is_upper c then ascii_of_nat (nat_of_ascii c + 32) else c.

Definition upper_char (c : ascii) : ascii :=
  if is_lower c then ascii_of_nat (nat_of_ascii c - 32) else c.

Fixpoint map_string (f : ascii -> ascii) (s : string) : string :=
  match s with
  | EmptyString => EmptyString
  | String c s' => String (f c) (map_string f s')
  end.

Definition toLowerCase : string -> string := map_string lower_char.
Definition toUpperCase : string -> string := map_string upper_char.

(** [s.includes(pat)]: [pat] occurs in [s] as a contiguous substring. *)
Fixpoint includes (s pat : string) : bool :=
  if prefix pat s then true
  else match s with
       | EmptyString => false
       | String _ s' => includes s' pat
       end.

Fixpoint all_chars (p : ascii -> bool) (s : string) : bool :=
  match s with
  | EmptyString => true
  | String c s' => p c && all_chars p s'
  end.

Fixpoint drop_spaces (s : string) : string :=
  match s with
  | EmptyString => EmptyString
  | String c s' => if is_space c then drop_spaces s' else s
  end.

(** Removes the white space at the end: a character is kept when it is not a
    space or when something is kept after it. *)
Fixpoint drop_trailing_spaces (s : string) : string :=
  match s with
  | EmptyString => EmptyString
  | String c s' =>
      match drop_trailing_spaces s' with
      | EmptyString => if is_space c then EmptyString else String c EmptyString
      | rest => String c rest
      end
  end.

(** [s.trim()] *)
Definition trim (s : string) : string := drop_trailing_spaces (drop_spaces s).

(** [s.split(/\s+/)]: the pieces between maximal runs of white space; a
    leading or trailing run leaves an empty piece at that end, and the empty
    string splits into one empty piece. [cur] is the piece being read, in
    reverse. *)
Fixpoint rev_string (acc s : string) : string :=
  match s with
  | EmptyString => acc
  | String c s' => rev_string (String c acc) s'
  end.

Fixpoint split_ws_aux (cur : string) (in_gap : bool) (s : string) : list string :=
  match s with
  | EmptyString => [rev_string "" cur]
  | String c s' =>
      if is_space c then
        if in_gap then split_ws_aux cur true s'
        else rev_string "" cur :: split_ws_aux "" true s'
      else split_ws_aux (String c cur) false s'
  end.

Definition split_ws (s : string) : list string := split_ws_aux "" false s.

(** [arr.includes(x)] on an array of strings. *)
Definition arr_includes (l : list string) (x : string) : bool :=
  existsb (String.eqb x) l.

(** [s.charCodeAt(0)] of a non-empty string. *)
Definition charCodeAt0 (s : string) : Z :=
  match s with
  | EmptyString => 0
  | String c _ => Z.of_nat (nat_of_ascii c)
  end.

Definition jslength (s : string) : Z := Z.of_nat (String.length s).

(** The longest run of upper-case letters at the head of [s], and the rest. *)
Fixpoint span_upper (s : string) : string * string :=
  match s with
  | EmptyString => (EmptyString, EmptyString)
  | String c s' =>
      if is_upper c then let (r, t) := span_upper s' in (String c r, t)
      else (EmptyString, s)
  end.

(** [s.match(/[A-Z]{2,}/)?.[0]]: the leftmost run of two or more upper-case
    letters, taken as long as it goes. *)
Fixpoint match_upper2 (s : string) : option string :=
  match s with
  | EmptyString => None
  | String c s' =>
      let r := fst (span_upper s) in
      if (2 <=? String.length r)%nat then Some r else match_upper2 s'
  end.

(** [/^[A-Za-z\s&.]+$/.test(s)] *)
Definition is_query_char (c : ascii) : bool :=
  is_upper c || is_lower c || is_space c ||
  (nat_of_ascii c =? 38)%nat || (nat_of_ascii c =? 46)%nat.

Definition test_alpha (s : string) : bool :=
  negb (String.eqb s "") && all_chars is_query_char s.

(** Decimal rendering of a non-negative integer. *)
Definition string_of_nonneg (n : Z) : string :=
  NilZero.string_of_uint (N.to_uint (Z.to_N n)).

End JsString.
Import JsString.

(** ** The canned answers of [processSpecificQuery] *)

Definition ans_asset_quality : string :=
"HDFC Bank's asset quality remains robust with gross NPA ratio at 1.34% and net NPA ratio at 0.35%.

Need more details? Ask about: provision coverage ratio, slippage ratio, or restructured assets.".

Definition ans_casa_ratio : string :=
"HDFC Bank's CASA (Current Account Savings Account) ratio stands at 42.5%, reflecting strong low-cost deposit base.

Need more details? Ask about: deposit growth, cost of funds, or liability management.".

Definition ans_merger_synergies : string :=
"HDFC Bank's merger with HDFC Ltd has expanded mortgage lending capabilities with projected annual synergies of ₹8,000 crore by year 3.

Need more details? Ask about: cross-selling opportunities, integration timeline, or operational efficiency.".

Definition ans_market_cap : string :=
"Market capitalization information for popular stocks:
• Apple: $2.75 trillion
• Microsoft: $3.09 trillion
• Amazon: $1.85 trillion
• Reliance Industries: ₹19.45 trillion
• HDFC Bank: ₹8.97 trillion

Need specific details? Ask about a particular company.".

Definition ans_volume : string :=
"Recent trading volume information:
• BSE: 3.21 billion shares
• Apple: 78.45 million shares
• Reliance: 8.45 million shares
• HDFC Bank: 6.25 million shares

Need more details? Ask about a specific company's liquidity or market activity.".

Definition ans_recent_news : string :=
"Recent market news highlights:
• US Fed commentary on interest rates impacting global markets
• Q4 earnings season showing resilience in IT and Banking sectors
• FII flows turning positive after recent selling
• Global tech rally supporting domestic technology stocks

Need specific news? Ask about a particular sector or company.".

Definition ans_apple : string :=
"Apple Inc. (AAPL) is currently trading at $175.34, up by 1.24%.

Need more details? Ask about: market cap, iPhone sales, or recent performance.".

Definition ans_bse : string :=
"BSE Sensex is currently at 73,876.44, up by 0.58%.

Need more details? Ask about: trading volume, sector performance, or FII activity.".

Definition ans_swiggy_quarter : string :=
"Swiggy reported 45% order growth and 60% revenue growth in the latest quarter.

Need more details? Ask about: profitability metrics, Instamart performance, or IPO plans.".

Definition ans_jyothy_labs : string :=
"Jyothy Labs shares are up 8% following a 25% increase in quarterly profit.

Need more details? Ask about: segment performance, profit margins, or analyst ratings.".

Definition ans_infosys : string :=
"Infosys (INFY) is currently trading with positive momentum. Their digital services division accounts for 59% of total revenue.

Need more details? Ask about: large deals, margins, or growth guidance.".

Definition ans_market_today : string :=
"Indian markets are positive today, with Nifty 50 up by 0.78%. IT and banking sectors are leading the gains.

Need more details? Ask about: FII/DII flows, specific sectors, or global market impact.".

Definition ans_hdfc : string :=
"HDFC Bank reported 17% YoY net profit growth with advances up 16.8% and deposits up 18.5%.

Need more details? Ask about: asset quality, CASA ratio, or merger synergies.".

Definition ans_tata_motors : string :=
"Tata Motors is showing strong positive momentum with JLR revenue up 32% YoY and improved EBIT margins of 8.6%.

Need more details? Ask about: EV division, domestic market share, or debt reduction.".

Definition ans_reliance : string :=
"Reliance Industries continues to diversify with Jio's ARPU improving to ₹181.7 and Retail showing 19.5% YoY revenue growth.

Need more details? Ask about: O2C segment, new energy investments, or digital business.".

Definition ans_zomato_high : string :=
"Zomato stock reached its recent high in early February 2024, trading above ₹190 per share.

Need more details? Ask about: recent volatility factors, Blinkit performance, or analyst targets.".

Definition ans_tcs_price : string :=
"TCS is currently trading at ₹3,680.55 per share.

Need more details? Ask about: quarterly results, deal pipeline, or margin outlook.".

Definition ans_iphone_sales : string :=
"Apple's iPhone sales reached approximately 224 million units last year, with the iPhone 15 series showing strong initial demand.

Need more details? Ask about: services revenue, product mix, or regional performance.".

Definition ans_apple_performance : string :=
"Apple's recent performance shows strength in services revenue (up 16% YoY) and expanding margins (46.1% gross margin).

Need more details? Ask about: regional growth, supply chain challenges, or AI strategy.".

Definition ans_ev_division : string :=
"Tata Motors has a dominant 70% market share in India's EV passenger vehicle segment with the Nexon EV, Tiago EV, and Punch EV lineup.

Need more details? Ask about: EV sales growth, battery technology, or charging infrastructure.".

Definition ans_domestic_share : string :=
"Tata Motors' domestic passenger vehicle market share has expanded to approximately 14.5%, making it the third-largest automaker in India.

Need more details? Ask about: SUV sales, competitive positioning, or new model launches.".

Definition ans_debt_reduction : string :=
"Tata Motors has substantially reduced its automotive debt from ₹48,700 crore to ₹39,600 crore over the past year, primarily driven by strong free cash flow from JLR.

Need more details? Ask about: debt-to-EBITDA ratio, refinancing activities, or cash position.".

Definition ans_o2c : string :=
"Reliance's O2C (Oil-to-Chemicals) segment has shown resilient operating profits despite global margin pressures, with refining margins remaining above the Singapore benchmark.

Need more details? Ask about: petrochemical demand, refining throughput, or margin trends.".

Definition ans_new_energy : string :=
"Reliance has committed ₹75,000 crore to new energy investments, including gigafactories for solar panels, energy storage, electrolyzers, and fuel cells, targeting net-zero by 2035.

Need more details? Ask about: green hydrogen, solar manufacturing, or energy storage solutions.".

Definition ans_digital_business : string :=
"Reliance's digital business (Jio Platforms) has 456 million subscribers with expanding 5G coverage reaching over 85% of India's population.

Need more details? Ask about: ARPU trends, data consumption, or digital services growth.".

Definition ans_profitability : string :=
"Swiggy reported an improvement in profitability metrics with adjusted EBITDA loss reduced to ₹125 crore from ₹425 crore year-on-year. Their contribution margin increased to 7.5%.

Need more details? Ask about: unit economics, cash burn, or category-wise margins.".

Definition ans_instamart : string :=
"Swiggy's Instamart (quick commerce) grew 110% YoY, now contributing approximately 35% to their overall GMV. Average delivery time is 15 minutes across 25+ cities.

Need more details? Ask about: basket size, retention rates, or competitive landscape.".

Definition ans_ipo_plans : string :=
"Swiggy is preparing for an IPO targeted for mid-2024, with an expected valuation of $10-12 billion. They've filed draft papers with SEBI in April 2024.

Need more details? Ask about: offer structure, pre-IPO placements, or key investors.".

Definition ans_mrf : string :=
"MRF Limited is currently trading at ₹128,550.75 per share, up by 0.69%.

Need more details? Ask about: trading volume, quarterly results, or dealer network.".

(** ** [processSpecificQuery] *)

(** The function of the source: a chain of [if]s over the lower-cased query,
    each returning its paragraph, and [null] at the end. *)
Definition processSpecificQuery (query : string) : option string :=
  let q := toLowerCase query in
  if includes q "asset quality" then Some ans_asset_quality
  else if includes q "casa ratio" then Some ans_casa_ratio
  else if includes q "merger synergies" then Some ans_merger_synergies
  else if includes q "market cap" then Some ans_market_cap
  else if includes q "volume" || includes q "trading volume" then Some ans_volume
  else if includes q "recent news" then Some ans_recent_news
  else if includes q "apple" || includes q "aapl" then Some ans_apple
  else if (q =? "bse") || (q =? "bse price") || (q =? "bse stock")
          || (q =? "bse stock price") then Some ans_bse
  else if includes q "swiggy" && (includes q "quarter" || includes q "quarterly")
       then Some ans_swiggy_quarter
  else if includes q "jyothy labs"
          && (includes q "up" || includes q "increase" || includes q "rise")
       then Some ans_jyothy_labs
  else if includes q "infosys" || includes q "infy" then Some ans_infosys
  else if includes q "market" && (includes q "today" || includes q "current")
       then Some ans_market_today
  else if includes q "hdfc" || includes q "hdfc bank" then Some ans_hdfc
  else if includes q "tata motors" || includes q "tatamotors"
       then Some ans_tata_motors
  else if includes q "reliance" || includes q "ril" then Some ans_reliance
  else if includes q "when" && includes q "zomato" && includes q "high"
       then Some ans_zomato_high
  else if includes q "tcs" && includes q "price" then Some ans_tcs_price
  else if includes q "iphone sales" || includes q "iphone"
          || (includes q "apple" && includes q "sales")
       then Some ans_iphone_sales
  else if includes q "recent performance" && includes q "apple"
       then Some ans_apple_performance
  else if includes q "ev division" || (includes q "tata" && includes q "ev")
       then Some ans_ev_division
  else if includes q "domestic market share" && includes q "tata"
       then Some ans_domestic_share
  else if includes q "debt reduction" && includes q "tata"
       then Some ans_debt_reduction
  else if (includes q "o2c" || includes q "oil to chemicals")
          && includes q "reliance"
       then Some ans_o2c
  else if includes q "new energy" && includes q "reliance"
       then Some ans_new_energy
  else if includes q "digital business"
          || (includes q "jio" && negb (includes q "arpu"))
       then Some ans_digital_business
  else if includes q "profitability metrics"
          || (includes q "swiggy" && includes q "profit")
       then Some ans_profitability
  else if includes q "instamart performance"
          || (includes q "swiggy" && includes q "instamart")
       then Some ans_instamart
  else if includes q "ipo plans" || (includes q "swiggy" && includes q "ipo")
       then Some ans_ipo_plans
  else if includes q "mrf" || includes q "mrf stock" || includes q "mrf price"
       then Some ans_mrf
  else None.

(** *** The rules as a table *)

(** A condition on the lower-cased query: containment of a literal, equality
    with a literal, and their boolean combinations. *)
Inductive Pattern : Type :=
| Includes (lit : string)
| Equals (lit : string)
| PAnd (p1 p2 : Pattern)
| POr (p1 p2 : Pattern)
| PNot (p : Pattern).

Fixpoint matches (p : Pattern) (q : string) : bool :=
  match p with
  | Includes lit => includes q lit
  | Equals lit => (q =? lit)
  | PAnd p1 p2 => matches p1 q && matches p2 q
  | POr p1 p2 => matches p1 q || matches p2 q
  | PNot p' => negb (matches p' q)
  end.

(** What the BSE rule tests in the source ([===]), and what it would test as
    a substring pattern. *)
Definition bse_pattern (test : string -> Pattern) : Pattern :=
  POr (POr (POr (test "bse") (test "bse price")) (test "bse stock"))
      (test "bse stock price").

Definition rules_with (bse_test : string -> Pattern) : list (Pattern * string) :=
  [ (Includes "asset quality", ans_asset_quality);
    (Includes "casa ratio", ans_casa_ratio);
    (Includes "merger synergies", ans_merger_synergies);
    (Includes "market cap", ans_market_cap);
    (POr (Includes "volume") (Includes "trading volume"), ans_volume);
    (Includes "recent news", ans_recent_news);
    (POr (Includes "apple") (Includes "aapl"), ans_apple);
    (bse_pattern bse_test, ans_bse);
    (PAnd (Includes "swiggy") (POr (Includes "quarter") (Includes "quarterly")),
     ans_swiggy_quarter);
    (PAnd (Includes "jyothy labs")
          (POr (POr (Includes "up") (Includes "increase")) (Includes "rise")),
     ans_jyothy_labs);
    (POr (Includes "infosys") (Includes "infy"), ans_infosys);
    (PAnd (Includes "market") (POr (Includes "today") (Includes "current")),
     ans_market_today);
    (POr (Includes "hdfc") (Includes "hdfc bank"), ans_hdfc);
    (POr (Includes "tata motors") (Includes "tatamotors"), ans_tata_motors);
    (POr (Includes "reliance") (Includes "ril"), ans_reliance);
    (PAnd (PAnd (Includes "when") (Includes "zomato")) (Includes "high"),
     ans_zomato_high);
    (PAnd (Includes "tcs") (Includes "price"), ans_tcs_price);
    (POr (POr (Includes "iphone sales") (Includes "iphone"))
         (PAnd (Includes "apple") (Includes "sales")),
     ans_iphone_sales);
    (PAnd (Includes "recent performance") (Includes "apple"),
     ans_apple_performance);
    (POr (Includes "ev division") (PAnd (Includes "tata") (Includes "ev")),
     ans_ev_division);
    (PAnd (Includes "domestic market share") (Includes "tata"),
     ans_domestic_share);
    (PAnd (Includes "debt reduction") (Includes "tata"), ans_debt_reduction);
    (PAnd (POr (Includes "o2c") (Includes "oil to chemicals"))
          (Includes "reliance"),
     ans_o2c);
    (PAnd (Includes "new energy") (Includes "reliance"), ans_new_energy);
    (POr (Includes "digital business")
         (PAnd (Includes "jio") (PNot (Includes "arpu"))),
     ans_digital_business);
    (POr (Includes "profitability metrics")
         (PAnd (Includes "swiggy") (Includes "profit")),
     ans_profitability);
    (POr (Includes "instamart performance")
         (PAnd (Includes "swiggy") (Includes "instamart")),
     ans_instamart);
    (POr (Includes "ipo plans") (PAnd (Includes "swiggy") (Includes "ipo")),
     ans_ipo_plans);
    (POr (POr (Includes "mrf") (Includes "mrf stock")) (Includes "mrf price"),
     ans_mrf) ].

(** The rules of the source: the BSE rule compares the whole query. *)
Definition rules : list (Pattern * string) := rules_with Equals.

(** The rules read as substring patterns throughout. *)
Definition substring_rules : list (Pattern * string) := rules_with Includes.

Definition canned_answers : list string := map snd rules.

(** The answer of the first rule that matches. *)
Fixpoint first_match (rs : list (Pattern * string)) (q : string) : option string :=
  match rs with
  | [] => None
  | (p, a) :: rs' => if matches p q then Some a else first_match rs' q
  end.

(** ** JavaScript numbers and their renderings *)

Module JsNumber.

Definition Qmax (a b : Q) : Q := if Qle_bool a b then b else a.

Definition Qltb (a b : Q) : bool := negb (Qle_bool b a).

(** Nearest integer, ties away from zero. *)
Definition round_half_away (q : Q) : Z :=
  if Qle_bool 0 q then Qfloor (q + (1 # 2)) else (- Qfloor (- q + (1 # 2)))%Z.

Definition string_of_Z (n : Z) : string :=
  ((if (n <? 0)%Z then "-" else "") ++ string_of_nonneg (Z.abs n))%string.

Definition two_digits (n : Z) : string :=
  ((if (n <? 10)%Z then "0" else "") ++ string_of_nonneg n)%string.

(** [x.toFixed(2)] *)
Definition toFixed2 (x : Q) : string :=
  let n := Z.abs (round_half_away (x * 100)) in
  ((if Qltb x 0 then "-" else "")
     ++ string_of_nonneg (n / 100) ++ "." ++ two_digits (n mod 100))%string.

(** Digits, least significant first, with a comma after the first three and
    then after every [next]. *)
Fixpoint group_digits (cnt next : nat) (rev_digits : list ascii) : list ascii :=
  match rev_digits with
  | [] => []
  | c :: rest =>
      match cnt with
      | O => ","%char :: c :: group_digits (next - 1) next rest
      | S k => c :: group_digits k next rest
      end
  end.

Definition grouped (next : nat) (n : Z) : string :=
  string_of_list_ascii
    (rev (group_digits 3 next (rev (list_ascii_of_string (string_of_nonneg n))))).

(** At most two fraction digits, none of them a trailing zero. *)
Definition fraction_digits (hundredths : Z) : string :=
  if (hundredths =? 0)%Z then ""
  else if (hundredths mod 10 =? 0)%Z then "." ++ string_of_nonneg (hundredths / 10)
  else "." ++ two_digits hundredths.

Definition toLocaleString (next : nat) (x : Q) : string :=
  let n := Z.abs (round_half_away (x * 100)) in
  ((if Qltb x 0 then "-" else "")
     ++ grouped next (n / 100) ++ fraction_digits (n mod 100))%string.

(** [x.toLocaleString("en-US", { maximumFractionDigits: 2 })]: groups of
    three. *)
Definition toLocaleString_enUS : Q -> string := toLocaleString 3.

(** [x.toLocaleString("en-IN", { maximumFractionDigits: 2 })]: the last
    three digits, then groups of two. *)
Definition toLocaleString_enIN : Q -> string := toLocaleString 2.

(** *** String to number

    Decimal literals with an optional sign and an optional fraction, between
    optional white space; the empty string is [0]. Every other string is
    [NaN] here (exponents, hexadecimal and [Infinity] are not modelled). *)
Definition digit_of (c : ascii) : option Z :=
  let n := nat_of_ascii c in
  if (48 <=? n)%nat && (n <=? 57)%nat then Some (Z.of_nat (n - 48)) else None.

(** Reads digits: the value read so far and the number of digits. *)
Fixpoint read_digits (acc : Z) (count : nat) (s : string) : Z * nat * string :=
  match s with
  | EmptyString => (acc, count, EmptyString)
  | String c s' =>
      match digit_of c with
      | Some d => read_digits (acc * 10 + d) (S count) s'
      | None => (acc, count, s)
      end
  end.

Definition parse_unsigned (s : string) : option Q :=
  let '(ip, n1, rest) := read_digits 0 0 s in
  match rest with
  | EmptyString => if (n1 =? 0)%nat then None else Some (inject_Z ip)
  | String c rest' =>
      if (nat_of_ascii c =? 46)%nat then
        let '(fp, n2, rest'') := read_digits 0 0 rest' in
        match rest'' with
        | EmptyString =>
            if ((n1 + n2)%nat =? 0)%nat then None
            else Some (inject_Z ip + inject_Z fp / inject_Z (10 ^ Z.of_nat n2))
        | _ => None
        end
      else None
  end.

Definition parse_number (s : string) : option Q :=
  match trim s with
  | EmptyString => Some 0
  | String c s' =>
      if (nat_of_ascii c =? 45)%nat then option_map Qopp (parse_unsigned s')
      else if (nat_of_ascii c =? 43)%nat then parse_unsigned s'
      else parse_unsigned (String c s')
  end.

End JsNumber.
Import JsNumber.

(** A property of a payload that the code reads without the type being
    enforced at run time. *)
Inductive JsVal : Type :=
| JUndefined
| JNum (n : Q)
| JStr (s : string).

(** [Number(v)], [None] for [NaN]. *)
Definition toNumber (v : JsVal) : option Q :=
  match v with
  | JUndefined => None
  | JNum n => Some n
  | JStr s => parse_number s
  end.

(** [`${v}`] of a string property that may be missing. *)
Definition interpolate (v : option string) : string :=
  match v with
  | Some s => s
  | None => "undefined"
  end.

(** ** Payloads of the backend *)

Inductive FundType : Type := MutualFund | ETF.

Inductive RiskLevel : Type := Low | Moderate | High.

(** [interface Fund] of [Funds.tsx]. *)
Record Fund : Type := {
  fund_name : string;
  fund_type : FundType;
  nav : Q;
  aum : Q;
  oneYearReturn : Q;
  threeYearReturn : Q;
  category : string;
  riskLevel : RiskLevel;
  schemeCode : option string;
  amcName : option string;
  isin : option string;
  topHoldings : option (list string)
}.

(** [interface StockData] of the chat component, with the properties as the
    code meets them at run time: the payload of [/stocks/:symbol] is cast to
    it unchecked, and the mock data of [getStockInfo] carries [change] and
    [changePercent] as strings. The time stamp [lastUpdated], which nothing
    reads, is left out. *)
Record StockData : Type := {
  symbol : option string;
  name : option string;
  price : JsVal;
  change : JsVal;
  changePercent : JsVal;
  volume : JsVal;
  marketCap : JsVal;
  sector : option string
}.

(** [interface ChatResponse]; of its properties the code modelled here reads
    [answer] only. *)
Record ChatResponse : Type := {
  answer : string;
  confidence : Q;
  is_prompt : option bool
}.

(** The body of a response, [response.data]. [PEmpty] is the empty body. *)
Inductive Payload : Type :=
| PEmpty
| PStock (d : StockData)
| PStocks (l : list StockData)
| PFunds (status : string) (data : option (list Fund))
| PChat (c : ChatResponse).

Record AdvancedSearchQuery : Type := {
  query : string;
  entity_type : option string;
  date_range : option Z
}.

Inductive Method : Type := GET | POST.

Inductive Body : Type :=
| NoBody
| ChatBody (query user_id : string)
| SearchBody (q : AdvancedSearchQuery).

Record Request : Type := {
  req_method : Method;
  req_url : string;
  req_body : Body
}.

Inductive HttpResult : Type :=
| HttpOk (p : Payload)
| HttpFail (reason : string).

(** What a rejected promise or a [throw] carries. *)
Inductive JsError : Type :=
| AxiosError (reason : string)
| Error (message : string)
| TypeError (message : string).

(** ** The world and the monad of asynchronous code *)

(** [http n r]: the backend's answer to [r] when [n] requests were sent
    before it; [random n]: the [n]-th value of [Math.random]; [clock n]: the
    [n]-th reading of the clock, in milliseconds since the epoch. *)
Record World : Type := {
  VITE_API_BASE_URL : option string;
  http : nat -> Request -> HttpResult;
  random : nat -> Q;
  clock : nat -> Z
}.

(** [Math.random] returns a number in the interval from 0 (inclusive) to 1
    (exclusive). *)
Definition random_ok (w : World) : Prop :=
  forall n, 0 <= random w n /\ random w n < 1.

(** What can be observed of a run: the requests with their results, the
    lines written to the console, and the calls of [searchWebForInfo]. *)
Inductive Event : Type :=
| EvHttp (r : Request) (res : HttpResult)
| EvConsole (label : string)
| EvWebSearch (query : string).

Record State : Type := {
  trace : list Event;
  draws : nat;
  ticks : nat
}.

Definition initial : State := {| trace := []; draws := 0; ticks := 0 |}.

Definition is_http (e : Event) : bool :=
  match e with EvHttp _ _ => true | _ => false end.

Definition sent (st : State) : nat := length (filter is_http (trace st)).

Definition is_web_search (e : Event) : bool :=
  match e with EvWebSearch _ => true | _ => false end.

Definition requested_urls (t : list Event) : list string :=
  flat_map (fun e => match e with EvHttp r _ => [req_url r] | _ => [] end) t.

Inductive Outcome (A : Type) : Type :=
| Resolved (a : A)
| Rejected (e : JsError).
Arguments Resolved {A} a.
Arguments Rejected {A} e.

Definition M (A : Type) : Type := World -> State -> Outcome A * State.

Definition ret {A} (a : A) : M A := fun _ st => (Resolved a, st).

Definition throw {A} (e : JsError) : M A := fun _ st => (Rejected e, st).

Definition bind {A B} (m : M A) (k : A -> M B) : M B :=
  fun w st =>
    match m w st with
    | (Resolved a, st') => k a w st'
    | (Rejected e, st') => (Rejected e, st')
    end.

(** [try { m } catch (e) { handler e }] *)
Definition try_catch {A} (m : M A) (handler : JsError -> M A) : M A :=
  fun w st =>
    match m w st with
    | (Resolved a, st') => (Resolved a, st')
    | (Rejected e, st') => handler e w st'
    end.

Declare Scope js_scope.
Delimit Scope js_scope with js.
Notation "x <- m ;; k" := (bind m (fun x => k))
  (at level 61, m at next level, right associativity) : js_scope.
Notation "m ;;; k" := (bind m (fun _ => k))
  (at level 61, right associativity) : js_scope.
Open Scope js_scope.

Definition emit (e : Event) : M unit :=
  fun _ st =>
    (Resolved tt,
     {| trace := trace st ++ [e]; draws := draws st; ticks := ticks st |}).

Definition console (label : string) : M unit := emit (EvConsole label).

Definition Math_random : M Q :=
  fun w st =>
    (Resolved (random w (draws st)),
     {| trace := trace st; draws := S (draws st); ticks := ticks st |}).

Definition Date_now : M Z :=
  fun w st =>
    (Resolved (clock w (ticks st)),
     {| trace := trace st; draws := draws st; ticks := S (ticks st) |}).

(** [import.meta.env.VITE_API_BASE_URL || "http://localhost:8001/api"] *)
Definition base_url (w : World) : string :=
  match VITE_API_BASE_URL w with
  | Some (String c s) => String c s
  | _ => "http://localhost:8001/api"
  end.

Definition API_BASE_URL : M string := fun w st => (Resolved (base_url w), st).

(** One request: the world answers, the exchange is recorded, and a failure
    rejects. The value is [response.data]. *)
Definition axios (m : Method) (url : string) (b : Body) : M Payload :=
  fun w st =>
    let r := {| req_method := m; req_url := url; req_body := b |} in
    let res := http w (sent st) r in
    let st' := {| trace := trace st ++ [EvHttp r res];
                  draws := draws st; ticks := ticks st |} in
    match res with
    | HttpOk p => (Resolved p, st')
    | HttpFail reason => (Rejected (AxiosError reason), st')
    end.

Definition axios_get (url : string) : M Payload := axios GET url NoBody.
Definition axios_post (url : string) (b : Body) : M Payload := axios POST url b.

(** ** The REST client [api] *)

Module api.

(** [api.chat.query(query, sessionId = "default")] *)
Definition chat_query (query : string) (sessionId : option string) : M Payload :=
  base <- API_BASE_URL ;;
  axios_post (base ++ "/chat/query")
             (ChatBody query match sessionId with Some s => s | None => "default" end).

(** [api.news.getRecent(limit = 20)] *)
Definition news_getRecent (limit : option Z) : M Payload :=
  base <- API_BASE_URL ;;
  axios_get (base ++ "/news/recent?limit="
               ++ string_of_Z match limit with Some n => n | None => 20%Z end).

(** [api.news.getByEntity(entityName, days = 30)] *)
Definition news_getByEntity (entityName : string) (days : option Z) : M Payload :=
  base <- API_BASE_URL ;;
  axios_get (base ++ "/news/entity/" ++ entityName ++ "?days="
               ++ string_of_Z match days with Some n => n | None => 30%Z end).

Definition news_search (q : AdvancedSearchQuery) : M Payload :=
  base <- API_BASE_URL ;;
  axios_post (base ++ "/news/search") (SearchBody q).

Definition news_refresh : M Payload :=
  base <- API_BASE_URL ;;
  axios_post (base ++ "/news/refresh") NoBody.

(** The mock data of [getStockInfo]; the five random numbers are drawn in the
    order of the properties. *)
Definition mockData (symbol : string) : M StockData :=
  r_price <- Math_random ;;
  r_change <- Math_random ;;
  r_percent <- Math_random ;;
  r_volume <- Math_random ;;
  r_cap <- Math_random ;;
  ret {| symbol := Some (toUpperCase symbol);
         name := Some (toUpperCase symbol);
         price := JNum (r_price * 5000 + 500);
         change := JStr (toFixed2 (r_change * 100 - 50));
         changePercent := JStr (toFixed2 (r_percent * 10 - 5));
         volume := JNum (inject_Z (Qfloor (r_volume * 10000000) + 100000));
         marketCap := JNum (inject_Z (Qfloor (r_cap * 10000000000) + 1000000000));
         sector := Some "Unknown" |}.

(** [api.getStockInfo(symbol)]; the value is [{ data }]. *)
Definition getStockInfo (symbol : string) : M Payload :=
  base <- API_BASE_URL ;;
  try_catch
    (axios_get (base ++ "/stocks/" ++ symbol))
    (fun error =>
       console ("Error fetching stock info for " ++ symbol ++ ":") ;;;
       try_catch
         (searchResponse <-
            axios_post (base ++ "/financial-data/search")
                       (SearchBody {| query := symbol;
                                      entity_type := Some "stock";
                                      date_range := None |}) ;;
          match searchResponse with
          | PStocks (first :: _) => ret (PStock first)
          | _ => throw (Error "No stock data found")
          end)
         (fun searchError =>
            console "Search fallback failed:" ;;;
            d <- mockData symbol ;;
            ret (PStock d))).

Definition getFundInfo (schemeName : string) : M Payload :=
  base <- API_BASE_URL ;;
  axios_get (base ++ "/funds/" ++ schemeName).

(** The two funds that [getAllFunds] and [fetchFunds] fall back to. *)
Definition hdfc_top_100 : Fund :=
  {| fund_name := "HDFC Top 100 Fund"; fund_type := MutualFund;
     nav := 850.25; aum := 21500; oneYearReturn := 15.8;
     threeYearReturn := 12.5; category := "Large Cap"; riskLevel := Moderate;
     schemeCode := None; amcName := None; isin := None; topHoldings := None |}.

Definition nifty_bees : Fund :=
  {| fund_name := "Nifty BeES"; fund_type := ETF;
     nav := 220.15; aum := 12800; oneYearReturn := 18.2;
     threeYearReturn := 14.7; category := "Index Fund"; riskLevel := Moderate;
     schemeCode := None; amcName := None; isin := None; topHoldings := None |}.

(** What [getAllFunds] resolves with: [{ status, data }]. *)
Record FundsReply : Type := {
  status : string;
  data : option (list Fund)
}.

Definition funds_fallback : FundsReply :=
  {| status := "success"; data := Some [hdfc_top_100; nifty_bees] |}.

(** [api.getAllFunds()] *)
Definition getAllFunds : M FundsReply :=
  base <- API_BASE_URL ;;
  try_catch
    (response <- axios_get (base ++ "/funds") ;;
     match response with
     | PFunds st d =>
         if (st =? "success")%string then ret {| status := st; data := d |}
         else throw (Error "Invalid response format")
     | _ => throw (Error "Invalid response format")
     end)
    (fun error =>
       console "Error fetching funds:" ;;;
       ret funds_fallback).

Definition getFundHoldings (schemeName : string) : M Payload :=
  base <- API_BASE_URL ;;
  axios_get (base ++ "/funds/" ++ schemeName ++ "/holdings").

Definition getETFInfo (symbol : string) : M Payload :=
  base <- API_BASE_URL ;;
  axios_get (base ++ "/etfs/" ++ symbol).

Definition searchFinancialData (q : AdvancedSearchQuery) : M Payload :=
  base <- API_BASE_URL ;;
  axios_post (base ++ "/financial-data/search") (SearchBody q).

End api.

(** ** The chat component [ChatInterface] *)

Module ChatInterface.

Record Message : Type := {
  id : string;
  content : string;
  isUser : bool
}.

Definition stock (sym nm : string) (p c cp : Q) (v mc : Z) (sec : string)
  : StockData :=
  {| symbol := Some sym; name := Some nm; price := JNum p; change := JNum c;
     changePercent := JNum cp; volume := JNum (inject_Z v);
     marketCap := JNum (inject_Z mc); sector := Some sec |}.

(** The table of [getMockStockData], in the order of the source. *)
Definition mockStocks : list (string * StockData) :=
  [ ("AAPL", stock "AAPL" "Apple Inc." 175.34 2.15 1.24
                   78453200 2751000000000 "Technology");
    ("MSFT", stock "MSFT" "Microsoft Corporation" 415.1 3.45 0.84
                   22145600 3090000000000 "Technology");
    ("AMZN", stock "AMZN" "Amazon.com, Inc." 178.75 (-1.25) (-0.69)
                   42985300 1850000000000 "Consumer Cyclical");
    ("GOOGL", stock "GOOGL" "Alphabet Inc." 155.72 1.89 1.23
                    26834500 1960000000000 "Technology");
    ("TSLA", stock "TSLA" "Tesla, Inc." 172.63 (-2.35) (-1.34)
                   92817600 550000000000 "Automotive");
    ("META", stock "META" "Meta Platforms, Inc." 493.5 7.82 1.61
                   15287400 1260000000000 "Communication Services");
    ("NFLX", stock "NFLX" "Netflix, Inc." 610.32 12.57 2.1
                   3642700 265000000000 "Entertainment");
    ("BSE", stock "BSE" "BSE Limited" 2485.6 24.3 0.99
                  186500 337000000000 "Financial Services");
    ("NSE", stock "NSE" "National Stock Exchange" 3576.25 42.75 1.21
                  245300 478000000000 "Financial Services");
    ("MRF", stock "MRF" "MRF Limited" 128550.75 876.25 0.69
                  18456 545000000000 "Automotive");
    ("BAJAJFINSV", stock "BAJAJFINSV" "Bajaj Finserv Ltd." 1598.45 24.35 1.55
                         987650 254000000000 "Financial Services");
    ("WIPRO", stock "WIPRO" "Wipro Limited" 475.2 5.65 1.2
                    2546700 260000000000 "Information Technology");
    ("TITAN", stock "TITAN" "Titan Company Limited" 3287.6 42.8 1.32
                    876540 292000000000 "Consumer Goods");
    ("NESTLEIND", stock "NESTLEIND" "Nestle India Limited" 24350.3 (-107.65) (-0.44)
                        154780 235000000000 "FMCG") ].

(** [mockStocks[key]] *)
Fixpoint lookup {A} (key : string) (table : list (string * A)) : option A :=
  match table with
  | [] => None
  | (k, v) :: rest => if (k =? key)%string then Some v else lookup key rest
  end.

Definition getMockStockData (stockName : string) : option StockData :=
  let upperStockName := toUpperCase stockName in
  match lookup upperStockName mockStocks with
  | Some d => Some d
  | None =>
      match find (fun kv => includes (toUpperCase (interpolate (name (snd kv))))
                                     upperStockName) mockStocks with
      | Some kv => Some (snd kv)
      | None =>
          if (upperStockName =? "APPLE")%string then lookup "AAPL" mockStocks
          else if (upperStockName =? "MICROSOFT")%string then lookup "MSFT" mockStocks
          else if (upperStockName =? "AMAZON")%string then lookup "AMZN" mockStocks
          else if (upperStockName =? "GOOGLE")%string then lookup "GOOGL" mockStocks
          else if (upperStockName =? "TESLA")%string then lookup "TSLA" mockStocks
          else if (upperStockName =? "FACEBOOK")%string
                  || (upperStockName =? "FB")%string
               then lookup "META" mockStocks
          else None
      end
  end.

(** A payload read as [StockData]: an object of another shape has none of
    the properties, the empty body is falsy. *)
Definition no_stock_fields : StockData :=
  {| symbol := None; name := None; price := JUndefined; change := JUndefined;
     changePercent := JUndefined; volume := JUndefined;
     marketCap := JUndefined; sector := None |}.

Definition as_stock (p : Payload) : option StockData :=
  match p with
  | PEmpty => None
  | PStock d => Some d
  | _ => Some no_stock_fields
  end.

Definition fetchStockData (stockName : string) : M (option StockData) :=
  try_catch
    (response <- api.getStockInfo (trim stockName) ;;
     ret (as_stock response))
    (fun error =>
       console "Error fetching stock data:" ;;;
       ret (getMockStockData (trim stockName))).

(** [stockData.price.toFixed(2)]: only a number has the method. *)
Definition price_toFixed2 (v : JsVal) : Outcome string :=
  match v with
  | JNum n => Resolved (toFixed2 n)
  | JStr _ => Rejected (TypeError "stockData.price.toFixed is not a function")
  | JUndefined =>
      Rejected (TypeError "Cannot read properties of undefined (reading 'toFixed')")
  end.

(** [x >= 0] after coercion; false for [NaN]. *)
Definition nonneg (v : JsVal) : bool :=
  match toNumber v with
  | Some n => Qle_bool 0 n
  | None => false
  end.

(** [Math.abs(x).toFixed(2)] *)
Definition abs_toFixed2 (v : JsVal) : string :=
  match toNumber v with
  | Some n => toFixed2 (Qabs n)
  | None => "NaN"
  end.

Definition formatStockResponse (stockData : StockData) : Outcome string :=
  let changeDirection := if nonneg (changePercent stockData) then "up" else "down" in
  match price_toFixed2 (price stockData) with
  | Rejected e => Rejected e
  | Resolved shown_price =>
      Resolved (interpolate (name stockData) ++ " ("
                ++ interpolate (symbol stockData)
                ++ ") is currently trading at ₹" ++ shown_price ++ ", "
                ++ changeDirection ++ " by "
                ++ abs_toFixed2 (changePercent stockData) ++ "%.

Need more details? Ask about: market cap, volume, or recent news.")
  end.

Definition lift {A} (o : Outcome A) : M A := fun _ st => (o, st).

(** *** [searchWebForInfo] *)

(** The price table, in the order of the source: price and [isIndian]. *)
Definition stockPrices : list (string * (Q * bool)) :=
  [ ("mrf", (128550.75, true)); ("reliance", (2875.35, true));
    ("tcs", (3680.55, true)); ("hdfc", (1578.4, true));
    ("infosys", (1752.3, true)); ("wipro", (475.2, true));
    ("apple", (175.34, false)); ("microsoft", (415.1, false));
    ("amazon", (178.75, false)); ("google", (155.72, false));
    ("tesla", (172.63, false)); ("meta", (493.5, false));
    ("facebook", (493.5, false)); ("netflix", (610.32, false));
    ("titan", (3287.6, true)); ("nestle", (24350.3, true));
    ("bajaj", (1598.45, true)); ("icici", (1124.85, true));
    ("maruti", (10850.6, true)); ("airtel", (1245.75, true));
    ("itc", (435.25, true)); ("hul", (2456.8, true));
    ("sbi", (764.35, true)); ("adani", (3125.45, true));
    ("kotak", (1876.9, true)) ].

(** The sentence both price branches return. *)
Definition trading_at (stockName : string) (isIndian : bool) (p : Q) : string :=
  let currencySymbol := if isIndian then "₹" else "$" in
  let formattedPrice :=
    if isIndian && Qltb 1000 p then toLocaleString_enIN p
    else toLocaleString_enUS p in
  toUpperCase stockName ++ " is currently trading at " ++ currencySymbol
    ++ formattedPrice ++ " per share.".

(** The first entry of the table whose key occurs in the lower-cased query. *)
Definition known_stock (query : string) : option (string * (Q * bool)) :=
  find (fun kv => includes (toLowerCase query) (fst kv)) stockPrices.

Definition stop_words : list string :=
  ["stock"; "price"; "what"; "current"; "trading"; "about"; "tell"; "show"].

Definition indian_markers : list string :=
  ["LTD"; "INDIA"; "BAJ"; "TAT"; "BHEL"; "ONGC"; "NTPC"; "BPCL"; "HPCL"; "GAIL"].

(** The name the price is made up for: the first run of capitals in the
    query, or else the first keyword longer than three characters that is not
    a stop word. *)
Definition potentialStockName (query : string) (keywords : list string)
  : option string :=
  match match_upper2 query with
  | Some m => Some m
  | None =>
      find (fun k => (3 <? String.length k)%nat
                     && negb (arr_includes stop_words k)) keywords
  end.

Definition isLikelyIndian (potential : string) : bool :=
  (2 <=? String.length potential)%nat
  && existsb (fun prefix => includes (toUpperCase potential) prefix) indian_markers.

Definition generatedPrice (potential : string) : Z :=
  ((charCodeAt0 potential * 100 + jslength potential * 1000) mod 50000 + 500)%Z.

Definition asks_for_price (query : string) (keywords : list string) : bool :=
  (arr_includes keywords "stock" && arr_includes keywords "price")
  || arr_includes keywords "trading"
  || existsb (fun k => (k =? "price")%string) keywords
  || includes (toLowerCase query) "current price".

Definition clearly_asks_for_price (query : string) (keywords : list string) : bool :=
  arr_includes keywords "price"
  || includes (toLowerCase query) "trading"
  || existsb (fun word => (word =? "current")%string) keywords.

(** The answer of the price branch, when it returns. *)
Definition price_answer (query : string) (keywords : list string) : option string :=
  if asks_for_price query keywords then
    match known_stock query with
    | Some (key, (p, isIndian)) => Some (trading_at key isIndian p)
    | None =>
        if clearly_asks_for_price query keywords then
          match potentialStockName query keywords with
          | Some (String c s as potential) =>
              Some (trading_at potential (isLikelyIndian potential)
                               (inject_Z (generatedPrice potential)))
          | _ => None
          end
        else None
    end
  else None.

Definition searchWebForInfo (query : string) : M string :=
  emit (EvWebSearch query) ;;;
  try_catch
    (let keywords := split_ws (toLowerCase query) in
     match price_answer query keywords with
     | Some sentence => ret sentence
     | None =>
         if arr_includes keywords "profitability" || arr_includes keywords "metrics"
         then
           ret ("Based on latest financial news sources:

" ++ (if includes query "Swiggy" then "Swiggy" else "The company")
    ++ " has shown improvement in key profitability metrics with contribution margin increasing to 7.5% and adjusted EBITDA loss narrowing by 70% year-on-year. The path to profitability is being accelerated by operational efficiencies and higher order values.

This information was compiled from recent financial reports and news articles.")
         else if arr_includes keywords "market" && arr_includes keywords "share"
         then
           r <- Math_random ;;
           ret ("According to recent market research:

The company has " ++ (if arr_includes keywords "growing" then "grown" else "maintained")
    ++ " its market position with approximately "
    ++ string_of_Z (Qfloor (r * 30) + 20)
    ++ "% share in its primary segment. Competition remains intense with key rivals introducing new offerings.

This information was compiled from industry reports and market analysis.")
         else if arr_includes keywords "forecast" || arr_includes keywords "outlook"
         then
           r1 <- Math_random ;;
           r2 <- Math_random ;;
           ret ("Based on analyst consensus from major financial publications:

The outlook appears " ++ (if Qltb 0.5 r1 then "cautiously optimistic" else "mixed")
    ++ " with projected growth of "
    ++ string_of_Z (Qfloor (r2 * 15) + 5)
    ++ "% in the coming year. Key factors to watch include consumer spending trends, inflationary pressures, and competitive dynamics.

This information represents a summary of various expert opinions from financial news sources.")
         else
           r1 <- Math_random ;;
           r2 <- Math_random ;;
           ret ("Based on available financial information:

The " ++ (if includes (toLowerCase query) "stock" then "stock" else "company")
    ++ " has shown " ++ (if Qltb 0.5 r1 then "positive" else "mixed")
    ++ " performance recently. Analysts note that "
    ++ (if Qltb 0.5 r2 then "market conditions" else "sector trends")
    ++ " will be key determinants of future performance.

This information represents a summary from financial news sources. For more specific details, you might consider checking specialized financial platforms.")
     end)
    (fun error =>
       console "Error in web search:" ;;;
       ret "I encountered an issue while searching for this information. Please try a different question or check financial news sources directly.").

(** *** [handleSubmit] *)

Record ChatState : Type := {
  messages : list Message;
  inputValue : string;
  isLoading : bool
}.

(** [setMessages((prev) => [...prev, m])] *)
Definition add_message (m : Message) (s : ChatState) : ChatState :=
  {| messages := messages s ++ [m];
     inputValue := inputValue s;
     isLoading := isLoading s |}.

(** The assistant's message, with [id: (Date.now() + 1).toString()]. *)
Definition aiMessage (now : Z) (text : string) : Message :=
  {| id := string_of_Z (now + 1); content := text; isUser := false |}.

(** A string is truthy when it is there and not empty. *)
Definition truthy (o : option string) : option string :=
  match o with
  | Some (String c s) => Some (String c s)
  | _ => None
  end.

(** [response.answer] *)
Definition answer_of (response : Payload) : option string :=
  match response with
  | PChat c => Some (answer c)
  | _ => None
  end.

Definition apology : string :=
  "I apologize for the inconvenience, but I encountered an error while processing your request. This might be due to a temporary service disruption. Could you try again with a different query or check back later?".

(** The block that the handler has twice, once for a failed stock look-up
    and once for the queries that do not look like a stock name: the chat
    API, and [searchWebForInfo] when it fails or has no answer. The two
    copies differ in the label they log. *)
Definition ask_chat (label input : string) (s : ChatState) : M ChatState :=
  try_catch
    (response <- api.chat_query input None ;;
     now <- Date_now ;;
     text <- match truthy (answer_of response) with
             | Some a => ret a
             | None => searchWebForInfo input
             end ;;
     ret (add_message (aiMessage now text) s))
    (fun chatError =>
       console label ;;;
       now <- Date_now ;;
       text <- searchWebForInfo input ;;
       ret (add_message (aiMessage now text) s)).

Definition handleSubmit (s : ChatState) : M ChatState :=
  let input := inputValue s in
  if (trim input =? "")%string then ret s
  else
    now <- Date_now ;;
    let userMessage :=
      {| id := string_of_Z now; content := input; isUser := true |} in
    let s1 := {| messages := messages s ++ [userMessage];
                 inputValue := "";
                 isLoading := true |} in
    s2 <- try_catch
            (match truthy (processSpecificQuery input) with
             | Some specificResponse =>
                 now <- Date_now ;;
                 ret (add_message (aiMessage now specificResponse) s1)
             | None =>
                 if test_alpha (trim input) then
                   stockData <- fetchStockData (trim input) ;;
                   match stockData with
                   | Some d =>
                       now <- Date_now ;;
                       text <- lift (formatStockResponse d) ;;
                       ret (add_message (aiMessage now text) s1)
                   | None => ask_chat "Error with chat API:" input s1
                   end
                 else ask_chat "Error with general query:" input s1
             end)
            (fun error =>
               console "Error processing request:" ;;;
               try_catch
                 (webResponse <- searchWebForInfo input ;;
                  now <- Date_now ;;
                  ret (add_message (aiMessage now webResponse) s1))
                 (fun _ =>
                    now <- Date_now ;;
                    ret (add_message (aiMessage now apology) s1))) ;;
    ret {| messages := messages s2;
           inputValue := inputValue s2;
           isLoading := false |}.

End ChatInterface.

(** ** The fund browser [Funds] *)

Module Funds.

Inductive Filter : Type := all | mf | etf.

Record FundsState : Type := {
  funds : list Fund;
  searchTerm : string;
  loading : bool;
  filter : Filter;
  error : option string
}.

Definition default_funds : list Fund := [api.hdfc_top_100; api.nifty_bees].

(** The test by which [fetchFunds] recognises the fall-back data of the
    server. *)
Definition is_server_fallback (data : list Fund) : bool :=
  (length data =? 5)%nat
  && match data with
     | f0 :: f1 :: _ =>
         (fund_name f0 =? "HDFC Top 100 Fund")%string
         && (fund_name f1 =? "Nifty BeES")%string
     | _ => false
     end.

Definition set_funds (l : list Fund) (s : FundsState) : FundsState :=
  {| funds := l; searchTerm := searchTerm s; loading := loading s;
     filter := filter s; error := error s |}.

Definition set_error (e : option string) (s : FundsState) : FundsState :=
  {| funds := funds s; searchTerm := searchTerm s; loading := loading s;
     filter := filter s; error := e |}.

Definition set_loading (b : bool) (s : FundsState) : FundsState :=
  {| funds := funds s; searchTerm := searchTerm s; loading := b;
     filter := filter s; error := error s |}.

Definition fetchFunds (s : FundsState) : M FundsState :=
  let s0 := set_error None (set_loading true s) in
  s1 <- try_catch
          (response <- api.getAllFunds ;;
           match (api.status response =? "success")%string, api.data response with
           | true, Some data =>
               console ("Loaded " ++ string_of_Z (Z.of_nat (length data))
                                  ++ " funds from API") ;;;
               if (length data =? 0)%nat then
                 ret (set_funds default_funds
                        (set_error
                           (Some "No fund data available. Using default examples.")
                           s0))
               else if is_server_fallback data then
                 ret (set_error
                        (Some "Failed to load fund data. Using fallback data.")
                        (set_funds data s0))
               else ret (set_funds data s0)
           | _, _ => throw (Error "Invalid data format received from API")
           end)
          (fun error =>
             console "Error fetching funds:" ;;;
             ret (set_funds default_funds
                    (set_error
                       (Some "Failed to load fund data. Using fallback data.")
                       s0))) ;;
  ret (set_loading false s1).

Definition matchesSearch (searchTerm : string) (fund : Fund) : bool :=
  includes (toLowerCase (fund_name fund)) (toLowerCase searchTerm).

Definition matchesFilter (f : Filter) (fund : Fund) : bool :=
  match f with all => true | _ => false end
  || (match f with mf => true | _ => false end
      && match fund_type fund with MutualFund => true | _ => false end)
  || (match f with etf => true | _ => false end
      && match fund_type fund with ETF => true | _ => false end).

Definition filteredFunds (s : FundsState) : list Fund :=
  List.filter (fun fund => matchesSearch (searchTerm s) fund
                           && matchesFilter (filter s) fund)
              (funds s).

End Funds.

(** ** The dashboard helper [generateDummyHistoricalData] *)

Module Dashboard.

Record DataPoint : Type := {
  date : string;
  price : Q
}.

Definition msPerDay : Z := 86400000.

(** The day of an instant, counted from the epoch in UTC. *)
Definition utc_day (t : Z) : Z := (t / msPerDay)%Z.

(** Year, month and day of a day number (proleptic Gregorian calendar). *)
Definition civil_from_days (days : Z) : Z * Z * Z :=
  let z := (days + 719468)%Z in
  let era := (z / 146097)%Z in
  let doe := (z - era * 146097)%Z in
  let yoe := ((doe - doe / 1460 + doe / 36524 - doe / 146096) / 365)%Z in
  let doy := (doe - (365 * yoe + yoe / 4 - yoe / 100))%Z in
  let mp := ((5 * doy + 2) / 153)%Z in
  let d := (doy - (153 * mp + 2) / 5 + 1)%Z in
  let m := (if (mp <? 10)%Z then mp + 3 else mp - 9)%Z in
  ((if (m <=? 2)%Z then yoe + era * 400 + 1 else yoe + era * 400)%Z, m, d).

Definition pad (width : nat) (n : Z) : string :=
  let s := string_of_nonneg n in
  string_of_list_ascii (repeat "0"%char (width - String.length s)) ++ s.

(** The date of a day number as [YYYY-MM-DD]. *)
Definition iso_of_day (day : Z) : string :=
  let '(y, m, d) := civil_from_days day in
  (if (0 <=? y)%Z && (y <=? 9999)%Z then pad 4 y
   else (if (y <? 0)%Z then "-" else "+") ++ pad 6 (Z.abs y))
    ++ "-" ++ pad 2 m ++ "-" ++ pad 2 d.

(** [date.toISOString().split("T")[0]]: the calendar date in UTC. *)
Definition iso_date (t : Z) : string := iso_of_day (utc_day t).

(** The time zone of the browser. [offset_at t] is the offset of local time
    from UTC, in milliseconds, at the instant [t]; [offset_of_local t] is the
    offset by which the local wall-clock time [t] is read, which differs from
    the former around a change of the offset ([LocalTZA(t, true)] and
    [LocalTZA(t, false)] of the language definition). *)
Record TimeZone : Type := {
  offset_at : Z -> Z;
  offset_of_local : Z -> Z
}.

(** [LocalTime(t)] and [UTC(t)] *)
Definition LocalTime (zone : TimeZone) (t : Z) : Z := (t + offset_at zone t)%Z.

Definition UTC (zone : TimeZone) (t : Z) : Z := (t - offset_of_local zone t)%Z.

Definition TimeWithinDay (t : Z) : Z := (t mod msPerDay)%Z.

(** The day of the month of a time value. *)
Definition DateFromTime (t : Z) : Z :=
  let '(_, _, d) := civil_from_days (utc_day t) in d.

(** [today.getDate()]: the day of the month in local time. *)
Definition getDate (zone : TimeZone) (t : Z) : Z :=
  DateFromTime (LocalTime zone t).

(** [date.setDate(dt)]: the local time of [t] with the day of the month
    replaced, so the day [dt - 1] days after the first of the local month, at
    the same time within the day; the result is read as local time. Days
    before the first or after the last of the month carry into the
    neighbouring months. *)
Definition setDate (zone : TimeZone) (t dt : Z) : Z :=
  let local := LocalTime zone t in
  let first_of_month := (utc_day local - (DateFromTime local - 1))%Z in
  UTC zone ((first_of_month + (dt - 1)) * msPerDay + TimeWithinDay local)%Z.

(** [date = new Date(today); date.setDate(today.getDate() - i)] *)
Definition days_before (zone : TimeZone) (today : Z) (i : nat) : Z :=
  setDate zone today (getDate zone today - Z.of_nat i)%Z.

(** The iterations [i], [i - 1], ..., [0] of the loop. *)
Fixpoint generate_from (zone : TimeZone) (i : nat) (today : Z)
         (basePrice currentPrice : Q) : M (list DataPoint) :=
  r <- Math_random ;;
  let change := (r - 0.48) * (basePrice * 0.03) in
  let currentPrice := currentPrice + change in
  let point := {| date := iso_date (days_before zone today i);
                  price := Qmax currentPrice (basePrice * 0.7) |} in
  match i with
  | O => ret [point]
  | S j =>
      rest <- generate_from zone j today basePrice currentPrice ;;
      ret (point :: rest)
  end.

Definition generateDummyHistoricalData (zone : TimeZone) (basePrice : Q)
  : M (list DataPoint) :=
  today <- Date_now ;;
  generate_from zone 30 today basePrice basePrice.

End Dashboard.

(** ** The methods of [api] as one type *)

Inductive ApiCall : Type :=
| Call_chat_query (query : string) (sessionId : option string)
| Call_news_getRecent (limit : option Z)
| Call_news_getByEntity (entityName : string) (days : option Z)
| Call_news_search (q : AdvancedSearchQuery)
| Call_news_refresh
| Call_getStockInfo (symbol : string)
| Call_getFundInfo (schemeName : string)
| Call_getAllFunds
| Call_getFundHoldings (schemeName : string)
| Call_getETFInfo (symbol : string)
| Call_searchFinancialData (q : AdvancedSearchQuery).

(** What a method resolves with: the body of a response, or the
    [{ status, data }] of [getAllFunds]. *)
Inductive ApiValue : Type :=
| AxiosData (p : Payload)
| FundsData (r : api.FundsReply).

Definition invoke (c : ApiCall) : M ApiValue :=
  match c with
  | Call_chat_query q sid => p <- api.chat_query q sid ;; ret (AxiosData p)
  | Call_news_getRecent limit => p <- api.news_getRecent limit ;; ret (AxiosData p)
  | Call_news_getByEntity e days =>
      p <- api.news_getByEntity e days ;; ret (AxiosData p)
  | Call_news_search q => p <- api.news_search q ;; ret (AxiosData p)
  | Call_news_refresh => p <- api.news_refresh ;; ret (AxiosData p)
  | Call_getStockInfo symbol => p <- api.getStockInfo symbol ;; ret (AxiosData p)
  | Call_getFundInfo n => p <- api.getFundInfo n ;; ret (AxiosData p)
  | Call_getAllFunds => r <- api.getAllFunds ;; ret (FundsData r)
  | Call_getFundHoldings n => p <- api.getFundHoldings n ;; ret (AxiosData p)
  | Call_getETFInfo symbol => p <- api.getETFInfo symbol ;; ret (AxiosData p)
  | Call_searchFinancialData q =>
      p <- api.searchFinancialData q ;; ret (AxiosData p)
  end.

(** The two methods that catch their errors. *)
Definition has_fallback (c : ApiCall) : bool :=
  match c with
  | Call_getStockInfo _ | Call_getAllFunds => true
  | _ => false
  end.

(** A backend that is down, and one that answers every request with a stock
    payload that has no price of its own (such as the [{ status, data }]
    envelope that the dashboard expects of [/stocks/:symbol]). *)
Definition offline : World :=
  {| VITE_API_BASE_URL := None;
     http := fun _ _ => HttpFail "Network Error";
     random := fun _ => 1 # 2;
     clock := fun n => (1793595600000 + Z.of_nat n)%Z |}.


(** The chat component with [input] typed in and no message yet. *)
Definition asked (input : string) : ChatInterface.ChatState :=
  {| ChatInterface.messages := [];
     ChatInterface.inputValue := input;
     ChatInterface.isLoading := false |}.

(** The fund browser before its data arrive. *)
Definition browsing : Funds.FundsState :=
  {| Funds.funds := []; Funds.searchTerm := ""; Funds.loading := true;
     Funds.filter := Funds.all; Funds.error := None |}.

(** ** The requests of the client and what counts as their failure *)

Definition funds_request (w : World) : Request :=
  {| req_method := GET; req_url := base_url w ++ "/funds"; req_body := NoBody |}.

Definition stock_request (w : World) (symbol : string) : Request :=
  {| req_method := GET;
     req_url := base_url w ++ "/stocks/" ++ symbol;
     req_body := NoBody |}.

Definition stock_search_request (w : World) (symbol : string) : Request :=
  {| req_method := POST;
     req_url := base_url w ++ "/financial-data/search";
     req_body := SearchBody {| query := symbol;
                               entity_type := Some "stock";
                               date_range := None |} |}.

(** The request threw, or the response has no body with status
    ["success"]. *)
Definition funds_unavailable (res : HttpResult) : bool :=
  match res with
  | HttpOk (PFunds st _) => negb (st =? "success")%string
  | _ => true
  end.

(** The search threw or found nothing. *)
Definition stock_search_failed (res : HttpResult) : bool :=
  match res with
  | HttpOk (PStocks (_ :: _)) => false
  | _ => true
  end.


(** ** What a specification of [filteredFunds] asks for *)



(** ** The chat box [Chat] *)

Module Chat.

(** An entry of the conversation history: the question and, once it has
    arrived, the response. *)
Record Conversation : Type := {
  conv_query : string;
  conv_response : option Payload
}.

Record ChatBoxState : Type := {
  query : string;
  sessionId : string;
  response : option Payload;
  loading : bool;
  error : option string;
  conversations : list Conversation
}.

(** [err.message]; every error of the model is an instance of [Error]. *)
Definition error_message (err : JsError) : string :=
  match err with
  | AxiosError reason => reason
  | Error message => message
  | TypeError message => message
  end.

(** [updated[updated.length - 1].response = result]: a [TypeError] when the
    history is empty. *)
Fixpoint set_last_response (result : Payload) (l : list Conversation)
  : Outcome (list Conversation) :=
  match l with
  | [] => Rejected (TypeError "Cannot set properties of undefined (setting 'response')")
  | [c] => Resolved [{| conv_query := conv_query c; conv_response := Some result |}]
  | c :: rest =>
      match set_last_response result rest with
      | Resolved rest' => Resolved (c :: rest')
      | Rejected e => Rejected e
      end
  end.

Definition with_error (msg : string) (s : ChatBoxState) : ChatBoxState :=
  {| query := query s; sessionId := sessionId s; response := response s;
     loading := loading s; error := Some msg; conversations := conversations s |}.

(** The handler of the form. The state set before an error is kept by the
    [catch]: the question is in the history when the request is sent, and the
    response is stored before the history is updated. *)
Definition handleSubmit (s : ChatBoxState) : M ChatBoxState :=
  if (trim (query s) =? "")%string then ret s
  else
    let s1 := {| query := query s; sessionId := sessionId s;
                 response := response s; loading := true; error := None;
                 conversations :=
                   conversations s ++ [{| conv_query := query s;
                                          conv_response := None |}] |} in
    answered <- try_catch
                  (result <- api.chat_query (query s) (Some (sessionId s)) ;;
                   ret (inr result))
                  (fun err => ret (inl err)) ;;
    let s2 :=
      match answered with
      | inl err => with_error (error_message err) s1
      | inr result =>
          let s' := {| query := query s1; sessionId := sessionId s1;
                       response := Some result; loading := loading s1;
                       error := error s1; conversations := conversations s1 |} in
          match set_last_response result (conversations s') with
          | Resolved updated =>
              {| query := ""; sessionId := sessionId s'; response := response s';
                 loading := loading s'; error := error s';
                 conversations := updated |}
          | Rejected err => with_error (error_message err) s'
          end
      end in
    ret {| query := query s2; sessionId := sessionId s2; response := response s2;
           loading := false; error := error s2;
           conversations := conversations s2 |}.

End Chat.

(** ** The instruments the dashboard shows *)

Module Instruments.

Inductive InstrumentType : Type := stock | mutualfund | etf.

(** [instrumentTypeFilter]: ["all"] or one of the types. *)
Inductive TypeFilter : Type := all | only (t : InstrumentType).

(** [interface FinancialInstrument] *)
Record FinancialInstrument : Type := {
  id : string;
  symbol : string;
  name : string;
  price : Q;
  change : Q;
  changePercent : Q;
  historicalData : list Dashboard.DataPoint;
  type : InstrumentType;
  marketCap : option Q;
  volume : option Q;
  sector : option string;
  nav : option Q;
  aum : option Q;
  category : option string;
  riskLevel : option string
}.

Definition type_eqb (a b : InstrumentType) : bool :=
  match a, b with
  | stock, stock | mutualfund, mutualfund | etf, etf => true
  | _, _ => false
  end.

Definition instrumentsToDisplay (searchPerformed : bool)
           (searchResults allInstruments : list FinancialInstrument)
           (instrumentTypeFilter : TypeFilter) : list FinancialInstrument :=
  if searchPerformed && (0 <? length searchResults)%nat then searchResults
  else match instrumentTypeFilter with
       | all => firstn 6 allInstruments
       | only t =>
           firstn 6 (List.filter (fun instrument => type_eqb (type instrument) t)
                                 allInstruments)
       end.

End Instruments.

(** ** The mock data [utils/mockData] *)

Module MockData.

Inductive Sentiment : Type := positive | negative | neutral.

Record NewsItem : Type := {
  id : string;
  title : string;
  source : string;
  date : string;
  summary : string;
  url : string;
  sentiment : Sentiment;
  relevantStocks : list string;
  impactScore : Z
}.

Definition month_abbr (m : Z) : string :=
  nth (Z.to_nat (m - 1))
      ["Jan"; "Feb"; "Mar"; "Apr"; "May"; "Jun";
       "Jul"; "Aug"; "Sep"; "Oct"; "Nov"; "Dec"] "".

(** [format(subDays(new Date(), ago), "MMM dd, yyyy")], where [today] is the
    number of the local calendar day on which the module is loaded. *)
Definition news_date (today : Z) (ago : Z) : string :=
  let '(y, m, d) := Dashboard.civil_from_days (today - ago) in
  month_abbr m ++ " " ++ Dashboard.pad 2 d ++ ", " ++ Dashboard.pad 4 y.

Definition mockNews (today : Z) : list NewsItem :=
  [    {| id := "n1";
       title := "HDFC Bank Q4 Results: Net Profit Below Expectations";
       source := "Financial Times India";
       date := news_date today 0;
       summary := "HDFC Bank reported a lower-than-expected net profit for Q4, causing shares to drop. Analysts cite higher provisions for bad loans as a key concern.";
       url := "#";
       sentiment := negative;
       relevantStocks := ["HDFC"];
       impactScore := (-7) |};
    {| id := "n2";
       title := "RBI Increases Repo Rate by 25 bps";
       source := "Economic Times";
       date := news_date today 1;
       summary := "The Reserve Bank of India increased the repo rate by 25 basis points to 6.50%, affecting banking and financial stocks nationwide.";
       url := "#";
       sentiment := negative;
       relevantStocks := ["HDFC"; "RELIANCE"];
       impactScore := (-5) |};
    {| id := "n3";
       title := "Infosys Wins Major Digital Transformation Deal with European Retailer";
       source := "Business Standard";
       date := news_date today 2;
       summary := "Infosys announced a significant multi-year contract with a leading European retailer for digital transformation services valued at over $200 million.";
       url := "#";
       sentiment := positive;
       relevantStocks := ["INFY"];
       impactScore := 8 |};
    {| id := "n4";
       title := "Tata Motors Unveils New EV Strategy, Shares Rally";
       source := "Auto News India";
       date := news_date today 2;
       summary := "Tata Motors revealed an ambitious plan to launch 10 new electric vehicles by 2025, driving the stock to a 52-week high.";
       url := "#";
       sentiment := positive;
       relevantStocks := ["TATAMOTORS"];
       impactScore := 8 |};
    {| id := "n5";
       title := "Global Chip Shortage Impacting Tech Sector ETFs";
       source := "Market Watch";
       date := news_date today 3;
       summary := "The ongoing semiconductor shortage continues to affect technology funds and ETFs, with many showing volatility due to supply chain concerns.";
       url := "#";
       sentiment := negative;
       relevantStocks := ["TECHETF"];
       impactScore := (-6) |};
    {| id := "n6";
       title := "Jyothy Labs Posts Impressive Q3 Results, Shares Up";
       source := "Industry Weekly";
       date := news_date today 0;
       summary := "Jyothy Labs reported strong Q3 results with a 15% increase in revenue and 22% growth in net profit, exceeding market expectations.";
       url := "#";
       sentiment := positive;
       relevantStocks := ["JOTHYLABS"];
       impactScore := 7 |} ].

(** [mockChatResponses], in the order of its keys. *)
Definition mockChatResponses : list (string * string) :=
  [    ("default",
     "I can help you understand market movements and news that affect stocks and funds. Try asking about specific stocks or recent market events.");
    ("hdfc bank",
     "HDFC Bank is down 1.92% today primarily due to lower-than-expected Q4 results reported yesterday. The bank's net profit missed analyst estimates by approximately 3.5%, with higher provisions for non-performing assets being a key concern. Additionally, the RBI's recent repo rate increase has put pressure on banking stocks across the board.");
    ("tech etf",
     "Tech-focused ETFs have been underperforming this week, with a decline of 2.79%. This is largely attributed to the ongoing global semiconductor shortage affecting supply chains. Recent news about production delays from major chip manufacturers has increased volatility in the tech sector.");
    ("jyothy labs",
     "Jyothy Labs is up 3.93% today following the release of strong Q3 results. The company reported a 15% year-over-year revenue increase and 22% growth in net profit, exceeding market expectations. Analysts have responded by upgrading their outlook, citing successful product innovations and effective cost management strategies.");
    ("nifty",
     "The Nifty index is showing weakness today, down by approximately 1.34%. This decline is primarily driven by banking sector weakness following HDFC Bank's disappointing results and the recent RBI rate hike. Additionally, global factors including rising U.S. Treasury yields and concerns about inflation are contributing to cautious market sentiment.");
    ("market outlook",
     "The current market outlook remains cautiously optimistic but volatile. Banking and financial sectors are under pressure due to monetary policy tightening. Technology stocks show mixed performance due to supply chain issues. However, consumer goods companies like Jyothy Labs are showing resilience with strong quarterly results. Investors should monitor upcoming earnings reports and central bank policy decisions for further direction.") ].

(** [mockChatResponses.default] *)
Definition default_response : string :=
  match ChatInterface.lookup "default" mockChatResponses with
  | Some r => r
  | None => "undefined"
  end.

Definition getRelevantNews (today : Z) (symbol : string) : list NewsItem :=
  List.filter (fun news => arr_includes (relevantStocks news) symbol)
              (mockNews today).

Definition getAIExplanation (query : string) : string :=
  let lowerQuery := toLowerCase query in
  match find (fun kv => includes lowerQuery (toLowerCase (fst kv)))
             mockChatResponses with
  | Some kv => snd kv
  | None => default_response
  end.

End MockData.

(** ** Worlds, states and predicates for the further properties *)

(** A backend that answers every request with an empty body. *)
Definition silent : World :=
  {| VITE_API_BASE_URL := None;
     http := fun _ _ => HttpOk PEmpty;
     random := fun _ => 1 # 2;
     clock := fun n => (1793595600000 + Z.of_nat n)%Z |}.

(** The chat box with a question typed in and nothing asked yet. *)
Definition typed (question : string) : Chat.ChatBoxState :=
  {| Chat.query := question; Chat.sessionId := "session_1793595600000_k3v9x2a";
     Chat.response := None; Chat.loading := false; Chat.error := None;
     Chat.conversations := [] |}.

(** The event is a line written to the console. *)
Definition is_console (e : Event) : bool :=
  match e with EvConsole _ => true | _ => false end.

(** What the fund browser shows when the filter is set to [f]. *)
Definition shown_under (f : Funds.Filter) (s : Funds.FundsState) : list Fund :=
  Funds.filteredFunds
    {| Funds.funds := Funds.funds s; Funds.searchTerm := Funds.searchTerm s;
       Funds.loading := Funds.loading s; Funds.filter := f;
       Funds.error := Funds.error s |}.

(** The instrument is of the type the filter selects. *)
Definition passes (f : Instruments.TypeFilter)
           (i : Instruments.FinancialInstrument) : Prop :=
  match f with
  | Instruments.all => True
  | Instruments.only t => Instruments.type i = t
  end.

(** The instruments that the dashboard lists: the six stocks and the two
    funds of the mock data, a fund being an ETF when its category says so.
    Their generated price histories are left out. *)
Definition stock_instrument (i sym nm : string) (p c cp cap vol : Q)
           (sec : string) : Instruments.FinancialInstrument :=
  {| Instruments.id := i; Instruments.symbol := sym; Instruments.name := nm;
     Instruments.price := p; Instruments.change := c;
     Instruments.changePercent := cp; Instruments.historicalData := [];
     Instruments.type := Instruments.stock;
     Instruments.marketCap := Some cap; Instruments.volume := Some vol;
     Instruments.sector := Some sec; Instruments.nav := None;
     Instruments.aum := None; Instruments.category := None;
     Instruments.riskLevel := None |}.

Definition fund_instrument (i sym nm : string) (p c cp assets : Q)
           (cat : string) : Instruments.FinancialInstrument :=
  {| Instruments.id := i; Instruments.symbol := sym; Instruments.name := nm;
     Instruments.price := p; Instruments.change := c;
     Instruments.changePercent := cp; Instruments.historicalData := [];
     Instruments.type := if includes (toLowerCase cat) "etf"
                         then Instruments.etf else Instruments.mutualfund;
     Instruments.marketCap := None; Instruments.volume := None;
     Instruments.sector := None; Instruments.nav := Some p;
     Instruments.aum := Some assets; Instruments.category := Some cat;
     Instruments.riskLevel := None |}.

Definition tech_etf : Instruments.FinancialInstrument :=
  fund_instrument "102" "TECHETF" "Technology Sector ETF"
                  187.75 (-5.4) (-2.79) 12450000000 "Sector ETF".

Definition allInstruments : list Instruments.FinancialInstrument :=
  [ stock_instrument "1" "HDFC" "HDFC Bank Limited" 1450.75 (-28.35) (-1.92)
                     8125000000000 7821450 "Banking";
    stock_instrument "2" "INFY" "Infosys Limited" 1752.3 24.8 1.43
                     7354000000000 5462130 "Information Technology";
    stock_instrument "3" "RELIANCE" "Reliance Industries Limited"
                     2568.45 (-12.75) (-0.49) 17456000000000 4123789 "Energy";
    stock_instrument "4" "TATAMOTORS" "Tata Motors Limited" 876.2 15.4 1.79
                     2932000000000 8945672 "Automotive";
    stock_instrument "5" "JOTHYLABS" "Jyothy Labs Limited" 326.85 12.35 3.93
                     120000000000 2134567 "Consumer Goods";
    stock_instrument "6" "ICICIBANK" "ICICI Bank Limited" 1023.45 5.25 0.52
                     7125000000000 5623450 "Banking";
    fund_instrument "101" "NIFTYBEES" "Nippon India ETF Nifty BeES"
                    235.45 (-3.2) (-1.34) 45670000000 "Index Fund";
    tech_etf ].

(** The symbols that some item of [mockNews] names. *)
Definition covered_symbols : list string :=
  ["HDFC"; "RELIANCE"; "INFY"; "TATAMOTORS"; "TECHETF"; "JOTHYLABS"].

(** ** Time zones and dates for [generateDummyHistoricalData] *)

(** A time zone whose offset never changes, given in minutes east of
    Greenwich. *)
Definition fixed_zone (minutes : Z) : Dashboard.TimeZone :=
  {| Dashboard.offset_at := fun _ => (minutes * 60000)%Z;
     Dashboard.offset_of_local := fun _ => (minutes * 60000)%Z |}.

(** Asia/Kolkata: five and a half hours ahead of UTC the whole year. *)
Definition kolkata : Dashboard.TimeZone := fixed_zone 330.

(** Europe/London in 2026: one hour ahead of UTC from 29 March, 01:00 UTC, to
    25 October, 01:00 UTC. A wall-clock time is read as summer time from
    29 March, 02:00, to 25 October, 02:00. *)
Definition london : Dashboard.TimeZone :=
  {| Dashboard.offset_at := fun t =>
       if ((1774746000000 <=? t) && (t <? 1792890000000))%Z then 3600000%Z
       else 0%Z;
     Dashboard.offset_of_local := fun t =>
       if ((1774749600000 <=? t) && (t <? 1792893600000))%Z then 3600000%Z
       else 0%Z |}.

(** The offset of the zone is the same at every time. *)
Definition constant_offset (zone : Dashboard.TimeZone) : Prop :=
  exists offset,
    (forall t, Dashboard.offset_at zone t = offset)
    /\ (forall t, Dashboard.offset_of_local zone t = offset).

(** Today's date as the user's calendar has it: the date of the instant in
    local time. *)
Definition local_date (zone : Dashboard.TimeZone) (t : Z) : string :=
  Dashboard.iso_of_day (Dashboard.utc_day (Dashboard.LocalTime zone t)).

(** A world whose clock stands at [t]. *)
Definition at_instant (t : Z) : World :=
  {| VITE_API_BASE_URL := None;
     http := fun _ _ => HttpFail "Network Error";
     random := fun _ => 1 # 2;
     clock := fun _ => t |}.

(** The dates of the points that a run returned. *)
Definition dates_of (run : Outcome (list Dashboard.DataPoint) * State)
  : list string :=
  match fst run with
  | Resolved points => map Dashboard.date points
  | Rejected _ => []
  end.

(** * Properties *)

(** ** The definitions at work *)

Example split_ws_keeps_empty_ends : split_ws " a  b " = [""; "a"; "b"; ""].
Proof. reflexivity. Qed.

Example match_upper2_leftmost :
  match_upper2 "What is the price of ONGC now AB" = Some "ONGC".
Proof. reflexivity. Qed.

Example trim_both_ends : trim "  tata motors  " = "tata motors".
Proof. reflexivity. Qed.

Example toLocaleString_lakh : toLocaleString_enIN 128550.75 = "1,28,550.75".
Proof. reflexivity. Qed.

Example toLocaleString_million : toLocaleString_enUS 1234567 = "1,234,567".
Proof. reflexivity. Qed.

Example toLocaleString_one_digit : toLocaleString_enIN 1578.4 = "1,578.4".
Proof. reflexivity. Qed.

Example toFixed2_negative : toFixed2 (- 3.214) = "-3.21".
Proof. reflexivity. Qed.

Example iso_date_epoch : Dashboard.iso_date 0 = "1970-01-01".
Proof. reflexivity. Qed.

Example iso_date_leap_day : Dashboard.iso_date 1709164800000 = "2024-02-29".
Proof. reflexivity. Qed.

Example processSpecificQuery_first_rule_wins :
  processSpecificQuery "Apple market cap" = Some ans_market_cap.
Proof. reflexivity. Qed.

Example processSpecificQuery_jio_arpu : processSpecificQuery "Jio ARPU" = None.
Proof. reflexivity. Qed.

Example searchWebForInfo_known_stock :
  fst (ChatInterface.searchWebForInfo "price of mrf" offline initial)
  = Resolved "MRF is currently trading at ₹1,28,550.75 per share.".
Proof. reflexivity. Qed.

Example searchWebForInfo_market_share :
  draws (snd (ChatInterface.searchWebForInfo "market share" offline initial)) = 1%nat.
Proof. reflexivity. Qed.

Example handleSubmit_mock_stock :
  option_map ChatInterface.content
    (match fst (ChatInterface.handleSubmit (asked "XYZ") offline initial) with
     | Resolved s => last (map Some (ChatInterface.messages s)) None
     | Rejected _ => None
     end)
  = Some "XYZ (XYZ) is currently trading at ₹3000.00, up by 0.00%.

Need more details? Ask about: market cap, volume, or recent news.".
Proof. reflexivity. Qed.

(** ** Strings *)

Section StringFacts.

Lemma append_inj_l (s a b : string) : s ++ a = s ++ b -> a = b.
Proof.
  induction s as [|c s IH]; simpl; intros H.
  - exact H.
  - injection H as H. auto.
Qed.








End StringFacts.

(** ** [processSpecificQuery] *)

Lemma first_match_none (rs : list (Pattern * string)) (q : string) :
  first_match rs q = None <-> (forall r, In r rs -> matches (fst r) q = false).
Proof.
  induction rs as [|[p a] rs IH]; simpl.
  - split; [intros _ r [] | reflexivity].
  - destruct (matches p q) eqn:E.
    + split; [discriminate|]. intros H. specialize (H (p, a) (or_introl eq_refl)).
      simpl in H. congruence.
    + rewrite IH. split.
      * intros H r [<-|Hr]; auto.
      * intros H r Hr. auto.
Qed.

Lemma first_match_some (rs : list (Pattern * string)) (q a : string) :
  first_match rs q = Some a -> In a (map snd rs).
Proof.
  induction rs as [|[p b] rs IH]; simpl; [discriminate|].
  destruct (matches p q); [intros [= ->]; now left | auto].
Qed.

Lemma processSpecificQuery_table (query : string) :
  processSpecificQuery query = first_match rules (toLowerCase query).
Proof. reflexivity. Qed.



(** C2, the claim as worded fails, in both directions. The pattern ["bse"]
    occurs in the query ["BSE today"], letter case aside, and yet
    [processSpecificQuery] returns [null] for it, because the BSE rule
    compares the whole query; and the query ["BSE"] gets the BSE paragraph
    although none of the substring rules holds of it. *)
Lemma processSpecificQuery_substring_cex :
  ((exists r, In r substring_rules
              /\ matches (fst r) (toLowerCase "BSE today") = true)
   /\ includes (toLowerCase "BSE today") "bse" = true
   /\ processSpecificQuery "BSE today" = None)
  /\ (processSpecificQuery "BSE" = Some ans_bse
      /\ forall r, In r rules -> snd r <> ans_bse ->
                   matches (fst r) (toLowerCase "BSE") = false).
Proof.
  split.
  - split; [|split; reflexivity].
    exists (bse_pattern Includes, ans_bse). split; [|reflexivity].
    unfold substring_rules, rules_with. simpl. tauto.
  - split; [reflexivity|].
    intros r Hr Hne. unfold rules, rules_with in Hr. simpl in Hr.
    repeat (destruct Hr as [<-|Hr]; [first [reflexivity | now elim Hne]|]).
    destruct Hr.
Qed.

(** C2, amended: [processSpecificQuery] returns the paragraph of the first
    rule of its table whose pattern holds of the lower-cased query, and
    [null] exactly when no pattern holds; the patterns are boolean
    combinations of substring tests, except for the BSE rule, which compares
    the whole query with four literals. Every paragraph returned is one of
    the 29 canned answers, and the result is a function of the query text
    alone. *)
Theorem processSpecificQuery_rules (query : string) :
  processSpecificQuery query = first_match rules (toLowerCase query)
  /\ (processSpecificQuery query = None
      <-> forall r, In r rules -> matches (fst r) (toLowerCase query) = false)
  /\ (forall a, processSpecificQuery query = Some a -> In a canned_answers)
  /\ length canned_answers = 29%nat.
Proof.
  rewrite processSpecificQuery_table. repeat split.
  - apply first_match_none.
  - apply first_match_none.
  - intros a. apply first_match_some.
Qed.

(** ** The REST client *)

Ltac step_monad :=
  unfold bind, try_catch, ret, throw, console, emit, API_BASE_URL, axios_get,
    axios_post, axios, ChatInterface.lift; simpl.

Lemma sent_snoc_http (t : list Event) (r : Request) (res : HttpResult) :
  length (filter is_http (t ++ [EvHttp r res])) = S (length (filter is_http t)).
Proof. rewrite filter_app, length_app. simpl. lia. Qed.

Lemma sent_snoc_console (t : list Event) (label : string) :
  length (filter is_http (t ++ [EvConsole label])) = length (filter is_http t).
Proof. rewrite filter_app, length_app. simpl. lia. Qed.

Lemma sent_snoc_search (t : list Event) (q : string) :
  length (filter is_http (t ++ [EvWebSearch q])) = length (filter is_http t).
Proof. rewrite filter_app, length_app. simpl. lia. Qed.

Create Rewrite HintDb sent.
#[local] Hint Rewrite sent_snoc_http sent_snoc_console sent_snoc_search : sent.

Ltac count_sent := unfold sent in *; simpl in *; autorewrite with sent in *.

Lemma getAllFunds_run (w : World) (st : State) :
  let res := http w (sent st) (funds_request w) in
  api.getAllFunds w st =
  if funds_unavailable res then
    (Resolved api.funds_fallback,
     {| trace := (trace st ++ [EvHttp (funds_request w) res])
                   ++ [EvConsole "Error fetching funds:"];
        draws := draws st; ticks := ticks st |})
  else
    (match res with
     | HttpOk (PFunds s d) => Resolved {| api.status := s; api.data := d |}
     | _ => Resolved api.funds_fallback
     end,
     {| trace := trace st ++ [EvHttp (funds_request w) res];
        draws := draws st; ticks := ticks st |}).
Proof.
  unfold api.getAllFunds. step_monad. fold (funds_request w).
  destruct (http w (sent st) (funds_request w)) as [[| | |s d|]|reason];
    try reflexivity.
  simpl. destruct (s =? "success")%string; reflexivity.
Qed.

Lemma getAllFunds_resolves (w : World) (st : State) :
  exists v st', api.getAllFunds w st = (Resolved v, st')
                /\ api.status v = "success".
Proof.
  rewrite getAllFunds_run. cbv zeta.
  destruct (http w (sent st) (funds_request w)) as [[| | |s d|]|reason]; simpl;
    eauto.
  destruct (s =? "success")%string eqn:E; simpl; eauto.
  apply String.eqb_eq in E. subst. eauto.
Qed.

(** C5: when the request for [/funds] throws, or its response has no body
    with status ["success"], [getAllFunds] resolves with the object whose
    status is ["success"] and whose data are the two funds "HDFC Top 100
    Fund" and "Nifty BeES"; and whatever happens, [getAllFunds] resolves with
    an object of status ["success"]. *)
Theorem getAllFunds_always_success (w : World) (st : State) :
  (funds_unavailable (http w (sent st) (funds_request w)) = true ->
   fst (api.getAllFunds w st) = Resolved api.funds_fallback)
  /\ api.status api.funds_fallback = "success"
  /\ option_map (map fund_name) (api.data api.funds_fallback)
     = Some ["HDFC Top 100 Fund"; "Nifty BeES"]
  /\ (exists v st', api.getAllFunds w st = (Resolved v, st')
                    /\ api.status v = "success").
Proof.
  rewrite getAllFunds_run. cbv zeta.
  split; [intros ->; reflexivity|].
  split; [reflexivity|]. split; [reflexivity|].
  rewrite <- getAllFunds_run. apply getAllFunds_resolves.
Qed.

Lemma getAllFunds_offline_witness :
  fst (api.getAllFunds offline initial) = Resolved api.funds_fallback.
Proof.
  apply (proj1 (getAllFunds_always_success offline initial)). reflexivity.
Defined.

Lemma random_price_bounds (r : Q) :
  0 <= r /\ r < 1 -> 500 <= r * 5000 + 500 /\ r * 5000 + 500 < 5500.
Proof. intros [H0 H1]. split; lra. Qed.

(** C6: when the look-up of [/stocks/:symbol] fails and the search that
    follows fails too (it throws or finds nothing), [getStockInfo] resolves
    with mock data: symbol and name are the input in upper case, the price is
    [Math.random() * 5000 + 500], at least 500 and below 5500, and the sector
    is "Unknown". *)
Theorem getStockInfo_mock (w : World) (sym : string) (st : State) (reason : string) :
  random_ok w ->
  http w (sent st) (stock_request w sym) = HttpFail reason ->
  stock_search_failed (http w (S (sent st)) (stock_search_request w sym)) = true ->
  exists d st',
    api.getStockInfo sym w st = (Resolved (PStock d), st')
    /\ symbol d = Some (toUpperCase sym)
    /\ name d = Some (toUpperCase sym)
    /\ price d = JNum (random w (draws st) * 5000 + 500)
    /\ 500 <= random w (draws st) * 5000 + 500
    /\ random w (draws st) * 5000 + 500 < 5500
    /\ sector d = Some "Unknown".
Proof.
  intros Hrand H1 H2.
  pose proof (random_price_bounds _ (Hrand (draws st))) as [Hlo Hhi].
  destruct st as [t dr tk].
  unfold api.getStockInfo, stock_request, stock_search_request in *.
  step_monad. count_sent. rewrite H1. step_monad. count_sent.
  destruct (http w (S (length (filter is_http t))) _)
    as [[| |[|first rest]| |]|reason2];
    try discriminate H2;
    (eexists; eexists; split; [reflexivity|]; simpl; repeat split; assumption).
Qed.

Lemma getStockInfo_mock_witness :
  exists d st',
    api.getStockInfo "tcs" offline initial = (Resolved (PStock d), st')
    /\ symbol d = Some "TCS"
    /\ name d = Some "TCS"
    /\ price d = JNum ((1 # 2) * 5000 + 500)
    /\ 500 <= (1 # 2) * 5000 + 500
    /\ (1 # 2) * 5000 + 500 < 5500
    /\ sector d = Some "Unknown".
Proof.
  apply (getStockInfo_mock offline "tcs" initial "Network Error").
  - intros n. simpl. split; [discriminate | reflexivity].
  - reflexivity.
  - reflexivity.
Defined.

(** Every method but [getStockInfo] and [getAllFunds] sends one request and
    hands its result on, be it a body or a failure. *)
Lemma invoke_plain (c : ApiCall) (w : World) (st : State) :
  has_fallback c = false ->
  exists r,
    invoke c w st =
    (match http w (sent st) r with
     | HttpOk p => Resolved (AxiosData p)
     | HttpFail reason => Rejected (AxiosError reason)
     end,
     {| trace := trace st ++ [EvHttp r (http w (sent st) r)];
        draws := draws st; ticks := ticks st |}).
Proof.
  destruct c; try discriminate; intros _; unfold invoke;
    [ unfold api.chat_query | unfold api.news_getRecent
    | unfold api.news_getByEntity | unfold api.news_search
    | unfold api.news_refresh | unfold api.getFundInfo
    | unfold api.getFundHoldings | unfold api.getETFInfo
    | unfold api.searchFinancialData ];
    step_monad;
    match goal with |- context [http w (sent st) ?r] => exists r end;
    destruct (http w (sent st) _); reflexivity.
Qed.

Lemma getStockInfo_resolves (sym : string) (w : World) (st : State) :
  exists p st', api.getStockInfo sym w st = (Resolved p, st').
Proof.
  unfold api.getStockInfo. step_monad.
  destruct (http w (sent st) _) as [p|reason]; [eauto|].
  step_monad.
  match goal with |- context [http w ?n ?r] => destruct (http w n r) as [p|reason2] end.
  - destruct p as [| |[|first rest]| |]; simpl; eauto.
  - simpl. eauto.
Qed.

(** C1, the claim as worded fails: with the backend down, [getFundInfo]
    rejects with the error of the request. *)
Lemma getFundInfo_rejects_cex :
  http offline 0 {| req_method := GET;
                    req_url := "http://localhost:8001/api/funds/HDFC Top 100 Fund";
                    req_body := NoBody |} = HttpFail "Network Error"
  /\ invoke (Call_getFundInfo "HDFC Top 100 Fund") offline initial
     = (Rejected (AxiosError "Network Error"),
        {| trace := [EvHttp {| req_method := GET;
                               req_url := "http://localhost:8001/api/funds/HDFC Top 100 Fund";
                               req_body := NoBody |}
                            (HttpFail "Network Error")];
           draws := 0; ticks := 0 |}).
Proof. split; reflexivity. Qed.

(** What [getStockInfo] resolves with once the look-up has failed: the first
    result of the search, or else the mock data. *)
Lemma getStockInfo_after_failure (sym : string) (w : World) (st : State)
      (reason : string) :
  http w (sent st) (stock_request w sym) = HttpFail reason ->
  fst (api.getStockInfo sym w st)
  = match http w (S (sent st)) (stock_search_request w sym) with
    | HttpOk (PStocks (first :: _)) => Resolved (PStock first)
    | _ =>
        Resolved
          (PStock
             {| symbol := Some (toUpperCase sym);
                name := Some (toUpperCase sym);
                price := JNum (random w (draws st) * 5000 + 500);
                change := JStr (toFixed2 (random w (1 + draws st) * 100 - 50));
                changePercent :=
                  JStr (toFixed2 (random w (2 + draws st) * 10 - 5));
                volume :=
                  JNum (inject_Z
                          (Qfloor (random w (3 + draws st) * 10000000) + 100000));
                marketCap :=
                  JNum (inject_Z
                          (Qfloor (random w (4 + draws st) * 10000000000)
                           + 1000000000));
                sector := Some "Unknown" |})
    end.
Proof.
  intros H1. destruct st as [t dr tk].
  unfold api.getStockInfo, stock_request, stock_search_request in *.
  step_monad. count_sent. rewrite H1. step_monad. count_sent.
  destruct (http w (S (length (filter is_http t))) _)
    as [[| |[|first rest]| |]|reason2]; reflexivity.
Qed.

(** C1, amended: [getStockInfo] and [getAllFunds] resolve whatever the
    backend does, and when their requests fail they resolve with substitute
    data. [getStockInfo], once its look-up has failed, resolves with the
    first result of the search and, when the search throws or finds nothing,
    with mock data: the symbol in upper case as symbol and name, five random
    numbers for price, change, change in per cent, volume and market
    capitalisation, and the sector "Unknown". [getAllFunds], when its
    request throws or brings no body of status "success", resolves with
    status "success" and the two funds "HDFC Top 100 Fund" and "Nifty BeES".
    Every other method of [api] sends one request and rejects with its error
    when it fails. *)
Theorem api_fallback_only_where_caught (c : ApiCall) (w : World) (st : State) :
  (has_fallback c = true -> exists v st', invoke c w st = (Resolved v, st'))
  /\ (forall sym reason,
        c = Call_getStockInfo sym ->
        http w (sent st) (stock_request w sym) = HttpFail reason ->
        match http w (S (sent st)) (stock_search_request w sym) with
        | HttpOk (PStocks (first :: _)) =>
            fst (invoke c w st) = Resolved (AxiosData (PStock first))
        | _ =>
            fst (invoke c w st)
            = Resolved
                (AxiosData
                   (PStock
                      {| symbol := Some (toUpperCase sym);
                         name := Some (toUpperCase sym);
                         price := JNum (random w (draws st) * 5000 + 500);
                         change :=
                           JStr (toFixed2 (random w (1 + draws st) * 100 - 50));
                         changePercent :=
                           JStr (toFixed2 (random w (2 + draws st) * 10 - 5));
                         volume :=
                           JNum (inject_Z
                                   (Qfloor (random w (3 + draws st) * 10000000)
                                    + 100000));
                         marketCap :=
                           JNum (inject_Z
                                   (Qfloor (random w (4 + draws st) * 10000000000)
                                    + 1000000000));
                         sector := Some "Unknown" |}))
        end)
  /\ (c = Call_getAllFunds ->
      funds_unavailable (http w (sent st) (funds_request w)) = true ->
      fst (invoke c w st)
      = Resolved
          (FundsData {| api.status := "success";
                        api.data := Some [api.hdfc_top_100; api.nifty_bees] |}))
  /\ (has_fallback c = false ->
      exists r,
        snd (invoke c w st)
        = {| trace := trace st ++ [EvHttp r (http w (sent st) r)];
             draws := draws st; ticks := ticks st |}
        /\ forall reason, http w (sent st) r = HttpFail reason ->
                          fst (invoke c w st) = Rejected (AxiosError reason)).
Proof.
  split; [|split; [|split]].
  - destruct c as [| | | | |sym| | | | |]; try discriminate; intros _;
      unfold invoke, bind.
    + destruct (getStockInfo_resolves sym w st) as (p & st' & ->).
      unfold ret. eauto.
    + destruct (getAllFunds_resolves w st) as (v & st' & -> & _).
      unfold ret. eauto.
  - intros sym reason -> H1.
    pose proof (getStockInfo_after_failure sym w st reason H1) as H.
    unfold invoke, bind.
    destruct (api.getStockInfo sym w st) as [[p|e] st'];
      destruct (http w (S (sent st)) (stock_search_request w sym))
        as [[| |[|first rest]| |]|reason2];
      simpl in H |- *; congruence.
  - intros -> H. unfold invoke, bind.
    rewrite getAllFunds_run. cbv zeta. rewrite H. reflexivity.
  - intros H. destruct (invoke_plain c w st H) as [r ->].
    exists r. split; [reflexivity|]. intros reason ->. reflexivity.
Qed.

Lemma api_fallback_witness :
  fst (invoke Call_getAllFunds offline initial)
  = Resolved
      (FundsData {| api.status := "success";
                    api.data := Some [api.hdfc_top_100; api.nifty_bees] |})
  /\ fst (invoke (Call_getStockInfo "tcs") offline initial)
     = Resolved
         (AxiosData
            (PStock
               {| symbol := Some "TCS";
                  name := Some "TCS";
                  price := JNum ((1 # 2) * 5000 + 500);
                  change := JStr "0.00";
                  changePercent := JStr "0.00";
                  volume := JNum (inject_Z 5100000);
                  marketCap := JNum (inject_Z 6000000000);
                  sector := Some "Unknown" |}))
  /\ fst (invoke Call_news_refresh offline initial)
     = Rejected (AxiosError "Network Error").
Proof.
  split; [|split].
  - apply (proj1 (proj2 (proj2
             (api_fallback_only_where_caught Call_getAllFunds offline initial))));
      reflexivity.
  - exact (proj1 (proj2
             (api_fallback_only_where_caught (Call_getStockInfo "tcs")
                                             offline initial))
             "tcs" "Network Error" eq_refl eq_refl).
  - destruct (proj2 (proj2 (proj2
               (api_fallback_only_where_caught Call_news_refresh offline initial)))
                eq_refl) as (r & _ & H).
    apply H. reflexivity.
Defined.

Lemma stock_urls_differ (w : World) (sym : string) :
  req_url (stock_request w sym) <> req_url (stock_search_request w sym).
Proof.
  unfold stock_request, stock_search_request. simpl. intros H.
  apply append_inj_l in H. discriminate.
Qed.

(** What [getStockInfo] leaves in the trace: one request, or the look-up and
    the search; no call of [searchWebForInfo]. *)
Lemma getStockInfo_trace (sym : string) (w : World) (st : State) :
  exists p st' new,
    api.getStockInfo sym w st = (Resolved p, st')
    /\ trace st' = (trace st ++ new)%list
    /\ ticks st' = ticks st
    /\ (requested_urls new = [req_url (stock_request w sym)]
        \/ requested_urls new = [req_url (stock_request w sym);
                                 req_url (stock_search_request w sym)])
    /\ forallb (fun e => negb (is_web_search e)) new = true.
Proof.
  unfold api.getStockInfo, stock_request, stock_search_request.
  destruct st as [t dr tk]. step_monad.
  destruct (http w (sent _) _) as [p|reason].
  - do 3 eexists. split; [reflexivity|]. simpl. split; [reflexivity|]. auto.
  - step_monad.
    match goal with |- context [http w ?n ?r] => destruct (http w n r) as [p|reason2] end.
    + destruct p as [| |[|first rest]| |]; simpl;
        (do 3 eexists; split; [reflexivity|]; simpl; rewrite <- ?app_assoc; simpl;
         split; [reflexivity|]; auto).
    + simpl. do 3 eexists. split; [reflexivity|]. simpl. rewrite <- ?app_assoc. simpl.
      split; [reflexivity|]. auto.
Qed.

(** C7: within one call of a method of [api], no URL is requested twice:
    the requests that the call adds to the trace have pairwise different
    URLs. *)
Theorem api_no_retry (c : ApiCall) (w : World) (st : State) :
  exists new,
    trace (snd (invoke c w st)) = (trace st ++ new)%list
    /\ NoDup (requested_urls new)
    /\ (length (requested_urls new) <= 2)%nat.
Proof.
  destruct (has_fallback c) eqn:E.
  - destruct c as [| | | | |sym| | | | |]; try discriminate; unfold invoke, bind.
    + destruct (getStockInfo_trace sym w st) as (p & st' & new & -> & Ht & _ & Hu & _).
      exists new. simpl. split; [exact Ht|].
      destruct Hu as [-> | ->]; split; simpl; try lia.
      * constructor; [intros [] | constructor].
      * constructor.
        -- intros [H|[]]. now apply (stock_urls_differ w sym).
        -- constructor; [intros [] | constructor].
    + rewrite getAllFunds_run. cbv zeta.
      destruct (http w (sent st) (funds_request w)) as [[| | |s d|]|reason];
        simpl; try destruct (s =? "success")%string; simpl;
        (eexists; rewrite <- ?app_assoc; split; [reflexivity|]; simpl;
         split; [|lia]; constructor; [intros [] | constructor]).
  - destruct (invoke_plain c w st E) as [r ->]. simpl.
    eexists. split; [reflexivity|]. simpl.
    split; [|lia]. constructor; [intros [] | constructor].
Qed.

(** ** [searchWebForInfo] *)








(** ** The chat submit handler *)

(** [searchWebForInfo] always resolves, and leaves its call in the trace. *)
Lemma searchWebForInfo_run (query : string) (w : World) (st : State) :
  exists text dr,
    ChatInterface.searchWebForInfo query w st =
    (Resolved text,
     {| trace := trace st ++ [EvWebSearch query];
        draws := dr; ticks := ticks st |}).
Proof.
  unfold ChatInterface.searchWebForInfo.
  unfold bind, try_catch, emit, ret, Math_random. simpl.
  destruct (ChatInterface.price_answer _ _); [eauto|].
  repeat match goal with
         | |- context [if ?b then _ else _] =>
             match b with
             | context [arr_includes] => destruct b
             end
         end; eauto.
Qed.




Lemma fetchStockData_run (stockName : string) (w : World) (st : State) :
  exists d st' new,
    ChatInterface.fetchStockData stockName w st = (Resolved d, st')
    /\ trace st' = (trace st ++ new)%list
    /\ ticks st' = ticks st
    /\ forallb (fun e => negb (is_web_search e)) new = true.
Proof.
  unfold ChatInterface.fetchStockData, try_catch, bind.
  destruct (getStockInfo_trace (trim stockName) w st)
    as (p & st' & new & -> & Ht & Hk & _ & Hn).
  unfold ret. eauto 10.
Qed.




(** ** The fund browser *)



(** C10: when [getAllFunds] resolves with its own two-fund fallback, the
    test by which [fetchFunds] recognises fall-back data (five funds, the
    first two named "HDFC Top 100 Fund" and "Nifty BeES") is false, and the
    component ends with the two canned funds and no error message. *)
Theorem fetchFunds_two_fund_fallback
        (s : Funds.FundsState) (w : World) (st st1 : State) :
  api.getAllFunds w st = (Resolved api.funds_fallback, st1) ->
  Funds.is_server_fallback [api.hdfc_top_100; api.nifty_bees] = false
  /\ exists s' st',
       Funds.fetchFunds s w st = (Resolved s', st')
       /\ Funds.funds s' = [api.hdfc_top_100; api.nifty_bees]
       /\ Funds.error s' = None
       /\ Funds.loading s' = false.
Proof.
  intros H. split; [reflexivity|].
  unfold Funds.fetchFunds. unfold bind at 1, try_catch, bind at 1.
  rewrite H. simpl. unfold ret. eauto 10.
Qed.

Lemma fetchFunds_two_fund_fallback_witness :
  exists s' st',
    Funds.fetchFunds browsing offline initial = (Resolved s', st')
    /\ Funds.funds s' = [api.hdfc_top_100; api.nifty_bees]
    /\ Funds.error s' = None
    /\ Funds.loading s' = false.
Proof.
  apply (fetchFunds_two_fund_fallback browsing offline initial
           (snd (api.getAllFunds offline initial))).
  reflexivity.
Defined.

(** ** [generateDummyHistoricalData] *)

(** [setDate] with [getDate() - i] goes back [i] days on the local clock,
    whatever the day of the month. *)
Lemma days_before_local (zone : Dashboard.TimeZone) (today : Z) (i : nat) :
  Dashboard.days_before zone today i
  = Dashboard.UTC zone (Dashboard.LocalTime zone today
                        - Z.of_nat i * Dashboard.msPerDay)%Z.
Proof.
  unfold Dashboard.days_before, Dashboard.setDate, Dashboard.getDate.
  cbv zeta. f_equal.
  unfold Dashboard.utc_day, Dashboard.TimeWithinDay, Dashboard.msPerDay.
  pose proof (Z.div_mod (Dashboard.LocalTime zone today) 86400000 ltac:(lia)).
  lia.
Qed.

Lemma utc_day_days_earlier (t : Z) (i : nat) :
  Dashboard.utc_day (t - Z.of_nat i * Dashboard.msPerDay)
  = (Dashboard.utc_day t - Z.of_nat i)%Z.
Proof.
  unfold Dashboard.utc_day, Dashboard.msPerDay.
  replace (t - Z.of_nat i * 86400000)%Z
    with (t + (- Z.of_nat i) * 86400000)%Z by lia.
  rewrite Z.div_add by lia. lia.
Qed.

Lemma Qmax_lower (a b : Q) : b <= Qmax a b.
Proof.
  unfold Qmax. destruct (Qle_bool a b) eqn:E.
  - apply Qle_refl.
  - apply Qlt_le_weak, Qnot_le_lt. intros H.
    apply Qle_bool_iff in H. congruence.
Qed.

Lemma rev_seq_S (n : nat) : rev (seq 0 (S n)) = n :: rev (seq 0 n).
Proof. rewrite seq_S, rev_app_distr. reflexivity. Qed.

Lemma generate_from_run (zone : Dashboard.TimeZone) (i : nat) (today : Z)
      (basePrice : Q) :
  forall (currentPrice : Q) (w : World) (st : State),
  exists points st',
    Dashboard.generate_from zone i today basePrice currentPrice w st
    = (Resolved points, st')
    /\ length points = S i
    /\ map Dashboard.date points
       = map (fun ago =>
                Dashboard.iso_date
                  (Dashboard.UTC zone (Dashboard.LocalTime zone today
                                       - Z.of_nat ago * Dashboard.msPerDay)%Z))
             (rev (seq 0 (S i)))
    /\ Forall (fun p => basePrice * 0.7 <= Dashboard.price p) points.
Proof.
  induction i as [|j IH]; intros currentPrice w st.
  - simpl. unfold bind, Math_random, ret. simpl.
    do 2 eexists. split; [reflexivity|]. simpl.
    split; [reflexivity|]. split.
    + now rewrite days_before_local.
    + constructor; [apply Qmax_lower | constructor].
  - unfold Dashboard.generate_from; fold Dashboard.generate_from.
    unfold bind at 1, Math_random at 1. cbv zeta.
    unfold bind at 1.
    match goal with
    | |- context [Dashboard.generate_from zone j today basePrice ?c w ?s] =>
        destruct (IH c w s) as (points & st' & -> & Hlen & Hdates & Hprices)
    end.
    unfold ret. do 2 eexists. split; [reflexivity|].
    split; [simpl; now rewrite Hlen|]. split.
    + rewrite rev_seq_S. cbn [map]. rewrite <- Hdates.
      cbn [Dashboard.date]. now rewrite days_before_local.
    + constructor; [apply Qmax_lower | exact Hprices].
Qed.

(** C9: [generateDummyHistoricalData] does not always date its points with
    the 31 days that end today: [setDate] steps back on the local clock and
    [toISOString] prints the date in UTC. In London, run on 10 April 2026 at
    00:30, the 31 points carry only 30 different dates: 29 March, the day the
    clocks went forward, comes twice, and the last date is 9 April. In
    Kolkata, run on 2 November 2026 at 02:00, the last point is dated
    1 November. *)
Lemma generateDummyHistoricalData_dates_cex :
  (local_date london 1775777400000 = "2026-04-10"
   /\ length (dates_of (Dashboard.generateDummyHistoricalData
                          london 1000 (at_instant 1775777400000) initial))
      = 31%nat
   /\ length (nodup string_dec
                (dates_of (Dashboard.generateDummyHistoricalData
                             london 1000 (at_instant 1775777400000) initial)))
      = 30%nat
   /\ count_occ string_dec
                (dates_of (Dashboard.generateDummyHistoricalData
                             london 1000 (at_instant 1775777400000) initial))
                "2026-03-29" = 2%nat
   /\ last (dates_of (Dashboard.generateDummyHistoricalData
                        london 1000 (at_instant 1775777400000) initial)) ""
      = "2026-04-09")
  /\ (local_date kolkata 1793565000000 = "2026-11-02"
      /\ last (dates_of (Dashboard.generateDummyHistoricalData
                           kolkata 1000 (at_instant 1793565000000) initial)) ""
         = "2026-11-01").
Proof. vm_compute. repeat split. Qed.

(** X20: in every time zone and for every [basePrice],
    [generateDummyHistoricalData] returns 31 points, each with a price of at
    least 0.7 times [basePrice].
    The point of [i] days ago, oldest first, is dated with the UTC date of
    the instant at which the local clock showed the present time [i] days
    earlier. In a time zone whose offset does not change these are the 31
    consecutive UTC dates that end at the UTC date of the present instant. *)
Theorem generateDummyHistoricalData_month
        (zone : Dashboard.TimeZone) (basePrice : Q) (w : World) (st : State) :
  exists points st',
    Dashboard.generateDummyHistoricalData zone basePrice w st
    = (Resolved points, st')
    /\ length points = 31%nat
    /\ Forall (fun p => 0.7 * basePrice <= Dashboard.price p) points
    /\ map Dashboard.date points
       = map (fun ago =>
                Dashboard.iso_date
                  (Dashboard.UTC zone
                     (Dashboard.LocalTime zone (clock w (ticks st))
                      - Z.of_nat ago * Dashboard.msPerDay)%Z))
             (rev (seq 0 31))
    /\ (constant_offset zone ->
        map Dashboard.date points
        = map (fun ago =>
                 Dashboard.iso_of_day
                   (Dashboard.utc_day (clock w (ticks st)) - Z.of_nat ago))
              (rev (seq 0 31))
        /\ last (map Dashboard.date points) ""
           = Dashboard.iso_date (clock w (ticks st))).
Proof.
  unfold Dashboard.generateDummyHistoricalData.
  unfold bind, Date_now.
  match goal with
  | |- context [Dashboard.generate_from zone 30 ?t basePrice ?c w ?s] =>
      destruct (generate_from_run zone 30 t basePrice c w s)
        as (points & st' & -> & Hlen & Hdates & Hprices)
  end.
  do 2 eexists. split; [reflexivity|]. split; [exact Hlen|].
  split; [|split; [exact Hdates|]].
  - eapply Forall_impl; [|exact Hprices]. intros p Hp. simpl in Hp.
    now rewrite Qmult_comm.
  - intros (offset & Hat & Hlocal).
    assert (Hday : forall ago : nat,
               Dashboard.iso_date
                 (Dashboard.UTC zone
                    (Dashboard.LocalTime zone (clock w (ticks st))
                     - Z.of_nat ago * Dashboard.msPerDay)%Z)
               = Dashboard.iso_of_day
                   (Dashboard.utc_day (clock w (ticks st)) - Z.of_nat ago)).
    { intros ago. unfold Dashboard.iso_date, Dashboard.UTC, Dashboard.LocalTime.
      rewrite Hat, Hlocal.
      replace (clock w (ticks st) + offset
               - Z.of_nat ago * Dashboard.msPerDay - offset)%Z
        with (clock w (ticks st) - Z.of_nat ago * Dashboard.msPerDay)%Z by lia.
      now rewrite utc_day_days_earlier. }
    assert (Hall : map Dashboard.date points
                   = map (fun ago =>
                            Dashboard.iso_of_day
                              (Dashboard.utc_day (clock w (ticks st))
                               - Z.of_nat ago))
                         (rev (seq 0 31))).
    { rewrite Hdates. apply map_ext. exact Hday. }
    split; [exact Hall|].
    rewrite Hall. unfold Dashboard.iso_date. simpl.
    now rewrite Z.sub_0_r.
Qed.

Lemma generateDummyHistoricalData_month_witness :
  exists points st',
    Dashboard.generateDummyHistoricalData kolkata 1000 offline initial
    = (Resolved points, st')
    /\ length points = 31%nat
    /\ Forall (fun p => 0.7 * 1000 <= Dashboard.price p) points
    /\ map Dashboard.date points
       = map (fun ago =>
                Dashboard.iso_of_day
                  (Dashboard.utc_day (clock offline 0) - Z.of_nat ago))
             (rev (seq 0 31))
    /\ last (map Dashboard.date points) "" = "2026-11-02".
Proof.
  destruct (generateDummyHistoricalData_month kolkata 1000 offline initial)
    as (points & st' & Hrun & Hlen & Hprices & _ & Hfixed).
  destruct (Hfixed (ex_intro _ 19800000%Z
                      (conj (fun _ => eq_refl) (fun _ => eq_refl))))
    as [Hdates Hlast].
  exists points, st'. repeat split; assumption.
Defined.

(** * Further properties *)

(** ** [processSpecificQuery] *)

Lemma some_neq (a b : string) : (a =? b) = false -> Some a <> Some b.
Proof. intros H [= E]. apply String.eqb_neq in H. contradiction. Qed.

(* Walks down the chain of rules: a rule that fires returns another
   paragraph, a rule that does not fire leaves the rest of the chain. *)
Ltac walk_rules :=
  repeat first
    [ apply some_neq; reflexivity
    | discriminate
    | match goal with
      | |- (if ?c then _ else _) <> _ => destruct c eqn:?
      end ].

Lemma processSpecificQuery_never (q : string) :
  processSpecificQuery q <> Some ans_apple_performance
  /\ processSpecificQuery q <> Some ans_o2c
  /\ processSpecificQuery q <> Some ans_new_energy.
Proof.
  unfold processSpecificQuery. cbv zeta.
  set (lq := toLowerCase q).
  repeat split.
  - destruct (includes lq "apple") eqn:Happle; simpl;
      rewrite ?andb_false_r; walk_rules.
  - destruct (includes lq "reliance") eqn:Hrel; simpl;
      rewrite ?andb_false_r; walk_rules.
  - destruct (includes lq "reliance") eqn:Hrel; simpl;
      rewrite ?andb_false_r; walk_rules.
Qed.

Ltac ask q := exists q; reflexivity.

(** X1: of the 29 canned paragraphs, [processSpecificQuery] can return all
    but three: the paragraphs on Apple's recent performance, on Reliance's
    O2C segment and on Reliance's new-energy investments are never returned,
    because a query that names Apple or Reliance is answered by an earlier
    rule. *)
Theorem processSpecificQuery_reachable (a : string) :
  In a canned_answers ->
  (exists q, processSpecificQuery q = Some a)
  <-> (a <> ans_apple_performance /\ a <> ans_o2c /\ a <> ans_new_energy).
Proof.
  intros Hin. split.
  - intros [q Hq].
    destruct (processSpecificQuery_never q) as (H1 & H2 & H3).
    repeat split; intros ->; congruence.
  - intros (H1 & H2 & H3).
    unfold canned_answers, rules, rules_with in Hin. simpl in Hin.
    repeat (destruct Hin as [<-|Hin];
            [ first [ now elim H1 | now elim H2 | now elim H3
                    | ask "asset quality" | ask "casa ratio"
                    | ask "merger synergies" | ask "market cap" | ask "volume"
                    | ask "recent news" | ask "aapl" | ask "bse"
                    | ask "swiggy quarter" | ask "jyothy labs up" | ask "infy"
                    | ask "market today" | ask "hdfc" | ask "tata motors"
                    | ask "ril" | ask "when zomato high" | ask "tcs price"
                    | ask "iphone" | ask "ev division"
                    | ask "tata domestic market share"
                    | ask "tata debt reduction" | ask "jio"
                    | ask "profitability metrics" | ask "instamart performance"
                    | ask "ipo plans" | ask "mrf" ] |]).
    destruct Hin.
Qed.

Lemma processSpecificQuery_reachable_witness :
  exists q, processSpecificQuery q = Some ans_mrf.
Proof.
  apply (processSpecificQuery_reachable ans_mrf).
  - unfold canned_answers, rules, rules_with. simpl.
    repeat first [left; reflexivity | right].
  - repeat split; apply String.eqb_neq; reflexivity.
Defined.

Lemma lower_upper_char (c : ascii) : lower_char (upper_char c) = lower_char c.
Proof. destruct c as [[] [] [] [] [] [] [] []]; reflexivity. Qed.

Lemma lower_lower_char (c : ascii) : lower_char (lower_char c) = lower_char c.
Proof. destruct c as [[] [] [] [] [] [] [] []]; reflexivity. Qed.

Lemma toLowerCase_toUpperCase (s : string) :
  toLowerCase (toUpperCase s) = toLowerCase s.
Proof.
  unfold toLowerCase, toUpperCase.
  induction s as [|c s IH]; simpl; [reflexivity|].
  now rewrite lower_upper_char, IH.
Qed.

Lemma toLowerCase_idempotent (s : string) :
  toLowerCase (toLowerCase s) = toLowerCase s.
Proof.
  unfold toLowerCase.
  induction s as [|c s IH]; simpl; [reflexivity|].
  now rewrite lower_lower_char, IH.
Qed.

Lemma upper_upper_char (c : ascii) : upper_char (upper_char c) = upper_char c.
Proof. destruct c as [[] [] [] [] [] [] [] []]; reflexivity. Qed.

Lemma toUpperCase_idempotent (s : string) :
  toUpperCase (toUpperCase s) = toUpperCase s.
Proof.
  unfold toUpperCase.
  induction s as [|c s IH]; simpl; [reflexivity|].
  now rewrite upper_upper_char, IH.
Qed.

(** X2: the letter case of the query does not matter to
    [processSpecificQuery]: the query in upper case and the query in lower
    case get the answer of the query itself. *)
Theorem processSpecificQuery_ignores_case (query : string) :
  processSpecificQuery (toUpperCase query) = processSpecificQuery query
  /\ processSpecificQuery (toLowerCase query) = processSpecificQuery query.
Proof.
  rewrite !processSpecificQuery_table.
  now rewrite toLowerCase_toUpperCase, toLowerCase_idempotent.
Qed.

(** ** More on [searchWebForInfo] *)

Lemma append_nonempty_r (a b : string) : b <> "" -> a ++ b <> "".
Proof. destruct a; simpl; [auto | discriminate]. Qed.

Lemma price_answer_nonempty (query : string) (keywords : list string) (text : string) :
  ChatInterface.price_answer query keywords = Some text -> text <> "".
Proof.
  unfold ChatInterface.price_answer.
  destruct (ChatInterface.asks_for_price _ _); [|discriminate].
  destruct (ChatInterface.known_stock query) as [[key [p isIndian]]|].
  - intros [= <-]. apply append_nonempty_r. discriminate.
  - destruct (ChatInterface.clearly_asks_for_price _ _); [|discriminate].
    destruct (ChatInterface.potentialStockName _ _) as [[|c s]|]; try discriminate.
    intros [= <-]. apply append_nonempty_r. discriminate.
Qed.

(** X3: [searchWebForInfo] never rejects and never answers with the empty
    string; it sends no request and writes nothing to the console, draws at
    most two random numbers and reads no clock. *)
Theorem searchWebForInfo_always_answers (query : string) (w : World) (st : State) :
  exists text st' new,
    ChatInterface.searchWebForInfo query w st = (Resolved text, st')
    /\ text <> ""
    /\ trace st' = (trace st ++ new)%list
    /\ forallb (fun e => negb (is_http e) && negb (is_console e)) new = true
    /\ sent st' = sent st
    /\ (draws st <= draws st' <= draws st + 2)%nat
    /\ ticks st' = ticks st.
Proof.
  assert (Hsent : forall t dr tk,
             sent {| trace := t ++ [EvWebSearch query]; draws := dr; ticks := tk |}
             = length (filter is_http t)).
  { intros t dr tk. unfold sent. simpl. rewrite filter_app. simpl.
    now rewrite app_nil_r. }
  unfold ChatInterface.searchWebForInfo.
  unfold bind, try_catch, emit, ret, Math_random. simpl.
  destruct (ChatInterface.price_answer _ _) as [text|] eqn:E.
  - do 3 eexists. split; [reflexivity|]. simpl.
    split; [now apply price_answer_nonempty in E|].
    split; [reflexivity|]. split; [reflexivity|].
    split; [apply Hsent|]. repeat split; lia.
  - repeat match goal with
           | |- context [if ?b then _ else _] =>
               match b with
               | context [arr_includes] => destruct b
               end
           end;
      (do 3 eexists; split; [reflexivity|]; simpl;
       split; [discriminate|];
       split; [reflexivity|]; split; [reflexivity|];
       split; [apply Hsent|]; repeat split; lia).
Qed.

Lemma floor_scaled_bounds (r : Q) (n : Z) :
  0 <= r /\ r < 1 -> (0 < n)%Z ->
  (0 <= Qfloor (r * inject_Z n) < n)%Z.
Proof.
  intros [H0 H1] Hn.
  assert (Hq : inject_Z 0 < inject_Z n) by (rewrite <- Zlt_Qlt; exact Hn).
  change (inject_Z 0) with 0 in Hq.
  assert (Hlo : 0 <= r * inject_Z n)
    by (apply Qmult_le_0_compat; [exact H0 | now apply Qlt_le_weak]).
  assert (Hhi : r * inject_Z n < inject_Z n).
  { setoid_replace (inject_Z n) with (1 * inject_Z n) at 2 by ring.
    apply Qmult_lt_compat_r; assumption. }
  pose proof (Qfloor_le (r * inject_Z n)) as Hfl.
  pose proof (Qlt_floor (r * inject_Z n)) as Hlt.
  split.
  - assert (H : inject_Z 0 < inject_Z (Qfloor (r * inject_Z n) + 1))
      by (change (inject_Z 0) with 0; eapply Qle_lt_trans; eassumption).
    rewrite <- Zlt_Qlt in H. lia.
  - rewrite Zlt_Qlt. eapply Qle_lt_trans; eassumption.
Qed.

(** X4: a query with the keywords "market" and "share" that is answered by
    no earlier branch gets the market-research paragraph, with one random
    number drawn and a share between 20 and 49 per cent; "grown" when the
    keyword "growing" occurs and "maintained" otherwise. *)
Theorem searchWebForInfo_market_share_range (query : string) (w : World) (st : State) :
  random_ok w ->
  ChatInterface.price_answer query (split_ws (toLowerCase query)) = None ->
  arr_includes (split_ws (toLowerCase query)) "profitability" = false ->
  arr_includes (split_ws (toLowerCase query)) "metrics" = false ->
  arr_includes (split_ws (toLowerCase query)) "market" = true ->
  arr_includes (split_ws (toLowerCase query)) "share" = true ->
  exists percent,
    percent = (Qfloor (random w (draws st) * 30) + 20)%Z
    /\ (20 <= percent <= 49)%Z
    /\ draws (snd (ChatInterface.searchWebForInfo query w st)) = S (draws st)
    /\ fst (ChatInterface.searchWebForInfo query w st)
       = Resolved ("According to recent market research:

The company has "
           ++ (if arr_includes (split_ws (toLowerCase query)) "growing"
               then "grown" else "maintained")
           ++ " its market position with approximately "
           ++ string_of_Z percent
           ++ "% share in its primary segment. Competition remains intense with key rivals introducing new offerings.

This information was compiled from industry reports and market analysis.").
Proof.
  intros Hrand Hprice Hp Hm Hmarket Hshare.
  eexists. split; [reflexivity|].
  pose proof (floor_scaled_bounds _ 30 (Hrand (draws st)) eq_refl) as Hb.
  change (inject_Z 30) with 30 in Hb.
  split; [lia|].
  unfold ChatInterface.searchWebForInfo.
  unfold bind, try_catch, emit, ret, Math_random. simpl.
  rewrite Hprice, Hp, Hm, Hmarket, Hshare. simpl. split; reflexivity.
Qed.

Lemma searchWebForInfo_market_share_range_witness :
  fst (ChatInterface.searchWebForInfo "growing market share" offline initial)
  = Resolved "According to recent market research:

The company has grown its market position with approximately 35% share in its primary segment. Competition remains intense with key rivals introducing new offerings.

This information was compiled from industry reports and market analysis.".
Proof.
  assert (Hr : random_ok offline)
    by (intros n; simpl; split; [discriminate | reflexivity]).
  destruct (searchWebForInfo_market_share_range
              "growing market share" offline initial
              Hr eq_refl eq_refl eq_refl eq_refl eq_refl)
    as (percent & -> & _ & _ & H).
  exact H.
Defined.

(** X5: a query with the keyword "forecast" or "outlook" that is answered
    by no earlier branch gets the analyst paragraph, with two random numbers
    drawn: the first decides between "cautiously optimistic" and "mixed", the
    second gives a projected growth between 5 and 19 per cent. *)
Theorem searchWebForInfo_forecast (query : string) (w : World) (st : State) :
  random_ok w ->
  ChatInterface.price_answer query (split_ws (toLowerCase query)) = None ->
  arr_includes (split_ws (toLowerCase query)) "profitability" = false ->
  arr_includes (split_ws (toLowerCase query)) "metrics" = false ->
  arr_includes (split_ws (toLowerCase query)) "market"
  && arr_includes (split_ws (toLowerCase query)) "share" = false ->
  arr_includes (split_ws (toLowerCase query)) "forecast"
  || arr_includes (split_ws (toLowerCase query)) "outlook" = true ->
  exists growth,
    growth = (Qfloor (random w (S (draws st)) * 15) + 5)%Z
    /\ (5 <= growth <= 19)%Z
    /\ draws (snd (ChatInterface.searchWebForInfo query w st)) = S (S (draws st))
    /\ fst (ChatInterface.searchWebForInfo query w st)
       = Resolved ("Based on analyst consensus from major financial publications:

The outlook appears "
           ++ (if Qltb 0.5 (random w (draws st))
               then "cautiously optimistic" else "mixed")
           ++ " with projected growth of "
           ++ string_of_Z growth
           ++ "% in the coming year. Key factors to watch include consumer spending trends, inflationary pressures, and competitive dynamics.

This information represents a summary of various expert opinions from financial news sources.").
Proof.
  intros Hrand Hprice Hp Hm Hmarket Hforecast.
  eexists. split; [reflexivity|].
  pose proof (floor_scaled_bounds _ 15 (Hrand (S (draws st))) eq_refl) as Hb.
  change (inject_Z 15) with 15 in Hb.
  split; [lia|].
  unfold ChatInterface.searchWebForInfo.
  unfold bind, try_catch, emit, ret, Math_random. simpl.
  rewrite Hprice, Hp, Hm, Hmarket, Hforecast. simpl. split; reflexivity.
Qed.

Lemma searchWebForInfo_forecast_witness :
  exists growth,
    (5 <= growth <= 19)%Z
    /\ draws (snd (ChatInterface.searchWebForInfo "Outlook for banks" offline initial))
       = 2%nat.
Proof.
  assert (Hr : random_ok offline)
    by (intros n; simpl; split; [discriminate | reflexivity]).
  destruct (searchWebForInfo_forecast
              "Outlook for banks" offline initial
              Hr eq_refl eq_refl eq_refl eq_refl eq_refl)
    as (growth & _ & Hb & Hd & _).
  exists growth. split; [exact Hb | exact Hd].
Defined.

(** ** More on [getStockInfo] and [fetchStockData] *)

Lemma getStockInfo_cases (sym : string) (w : World) (st : State) :
  match http w (sent st) (stock_request w sym) with
  | HttpOk p =>
      api.getStockInfo sym w st
      = (Resolved p,
         {| trace := trace st ++ [EvHttp (stock_request w sym) (HttpOk p)];
            draws := draws st; ticks := ticks st |})
  | HttpFail _ =>
      match http w (S (sent st)) (stock_search_request w sym) with
      | HttpOk (PStocks (first :: _)) =>
          fst (api.getStockInfo sym w st) = Resolved (PStock first)
          /\ draws (snd (api.getStockInfo sym w st)) = draws st
      | _ =>
          (exists d, fst (api.getStockInfo sym w st) = Resolved (PStock d))
          /\ draws (snd (api.getStockInfo sym w st)) = (draws st + 5)%nat
      end
  end.
Proof.
  destruct st as [t dr tk].
  unfold api.getStockInfo, stock_request, stock_search_request.
  step_monad. count_sent.
  destruct (http w (length (filter is_http t)) _) as [p|reason] eqn:E1;
    [reflexivity|].
  step_monad. count_sent.
  destruct (http w (S (length (filter is_http t))) _)
    as [[| |[|first rest]| |]|reason2] eqn:E2; simpl;
    try (split; reflexivity); (split; [eauto | lia]).
Qed.

(** X6: [getStockInfo] makes up mock data only as a last resort. When the
    look-up succeeds it hands on the body of the response, after one request;
    when the look-up fails and the search finds something it resolves with
    the first result; in both cases no random number is drawn. Only when
    both fail does it draw its five random numbers. *)
Theorem getStockInfo_prefers_backend (sym : string) (w : World) (st : State) :
  match http w (sent st) (stock_request w sym) with
  | HttpOk p =>
      api.getStockInfo sym w st
      = (Resolved p,
         {| trace := trace st ++ [EvHttp (stock_request w sym) (HttpOk p)];
            draws := draws st; ticks := ticks st |})
  | HttpFail _ =>
      match http w (S (sent st)) (stock_search_request w sym) with
      | HttpOk (PStocks (first :: _)) =>
          fst (api.getStockInfo sym w st) = Resolved (PStock first)
          /\ draws (snd (api.getStockInfo sym w st)) = draws st
      | _ =>
          (exists d, fst (api.getStockInfo sym w st) = Resolved (PStock d))
          /\ draws (snd (api.getStockInfo sym w st)) = (draws st + 5)%nat
      end
  end.
Proof. exact (getStockInfo_cases sym w st). Qed.

(** X7: in the mock data of [getStockInfo], [change] and [changePercent]
    are strings, the two-decimal renderings of numbers in [-50, 50) and
    [-5, 5), and [volume] and [marketCap] are integers in
    [100000, 10100000) and [1000000000, 11000000000). *)
Theorem getStockInfo_mock_fields (w : World) (sym : string) (st : State) (reason : string) :
  random_ok w ->
  http w (sent st) (stock_request w sym) = HttpFail reason ->
  stock_search_failed (http w (S (sent st)) (stock_search_request w sym)) = true ->
  exists d delta percent vol cap,
    fst (api.getStockInfo sym w st) = Resolved (PStock d)
    /\ change d = JStr (toFixed2 delta) /\ - (50) <= delta /\ delta < 50
    /\ changePercent d = JStr (toFixed2 percent) /\ - (5) <= percent /\ percent < 5
    /\ volume d = JNum (inject_Z vol) /\ (100000 <= vol < 10100000)%Z
    /\ marketCap d = JNum (inject_Z cap) /\ (1000000000 <= cap < 11000000000)%Z.
Proof.
  intros Hrand H1 H2.
  destruct st as [t dr tk].
  unfold api.getStockInfo, stock_request, stock_search_request in *.
  step_monad. count_sent. rewrite H1. step_monad. count_sent.
  pose proof (Hrand (S dr)) as [Hc0 Hc1].
  pose proof (Hrand (S (S dr))) as [Hp0 Hp1].
  pose proof (floor_scaled_bounds _ 10000000
                (Hrand (S (S (S dr)))) eq_refl) as Hv.
  pose proof (floor_scaled_bounds _ 10000000000
                (Hrand (S (S (S (S dr))))) eq_refl) as Hm.
  change (inject_Z 10000000) with 10000000 in Hv.
  change (inject_Z 10000000000) with 10000000000 in Hm.
  destruct (http w (S (length (filter is_http t))) _)
    as [[| |[|first rest]| |]|reason2];
    try discriminate H2;
    (eexists;
     exists (random w (S dr) * 100 - 50), (random w (S (S dr)) * 10 - 5),
            (Qfloor (random w (S (S (S dr))) * 10000000) + 100000)%Z,
            (Qfloor (random w (S (S (S (S dr)))) * 10000000000) + 1000000000)%Z;
     split; [reflexivity|];
     split; [reflexivity|]; split; [lra|]; split; [lra|];
     split; [reflexivity|]; split; [lra|]; split; [lra|];
     split; [reflexivity|]; split; [lia|];
     split; [reflexivity|]; lia).
Qed.

Lemma getStockInfo_mock_fields_witness :
  exists d delta percent vol cap,
    fst (api.getStockInfo "tcs" offline initial) = Resolved (PStock d)
    /\ change d = JStr (toFixed2 delta) /\ - (50) <= delta /\ delta < 50
    /\ changePercent d = JStr (toFixed2 percent) /\ - (5) <= percent /\ percent < 5
    /\ volume d = JNum (inject_Z vol) /\ (100000 <= vol < 10100000)%Z
    /\ marketCap d = JNum (inject_Z cap) /\ (1000000000 <= cap < 11000000000)%Z.
Proof.
  apply (getStockInfo_mock_fields offline "tcs" initial "Network Error").
  - intros n. simpl. split; [discriminate | reflexivity].
  - reflexivity.
  - reflexivity.
Defined.

(** X8: the [catch] of [fetchStockData], and with it [getMockStockData], is
    never reached: [fetchStockData] resolves with the data of
    [getStockInfo], and it resolves with [null] exactly when the look-up of
    [/stocks/:symbol] answered with an empty body. *)
Theorem fetchStockData_never_mocks (stockName : string) (w : World) (st : State) :
  exists p st',
    api.getStockInfo (trim stockName) w st = (Resolved p, st')
    /\ ChatInterface.fetchStockData stockName w st
       = (Resolved (ChatInterface.as_stock p), st')
    /\ (ChatInterface.as_stock p = None
        <-> http w (sent st) (stock_request w (trim stockName)) = HttpOk PEmpty).
Proof.
  unfold ChatInterface.fetchStockData, try_catch, bind.
  pose proof (getStockInfo_cases (trim stockName) w st) as Hsrc.
  destruct (getStockInfo_resolves (trim stockName) w st) as (p & st' & Heq).
  rewrite Heq in *. unfold ret. exists p, st'.
  split; [reflexivity|]. split; [reflexivity|].
  revert Hsrc.
  destruct (http w (sent st) (stock_request w (trim stockName))) as [p0|reason].
  - intros H0. injection H0 as H0 _. subst p.
    destruct p0; simpl; split; intros H; first [discriminate H | reflexivity].
  - destruct (http w (S (sent st)) (stock_search_request w (trim stockName)))
      as [[|d0|[|first rest]| |]|reason2]; simpl; intros [Hp _];
      try match type of Hp with ex _ => destruct Hp as [mock Hp] end;
      injection Hp as ->;
      simpl; split; intros H; discriminate H.
Qed.

(** ** More on the chat submit handler *)

Lemma ask_chat_reply (label input : string) (s : ChatInterface.ChatState)
      (w : World) (st : State) :
  exists text st',
    ChatInterface.ask_chat label input s w st
    = (Resolved (ChatInterface.add_message
                   (ChatInterface.aiMessage (clock w (ticks st)) text) s), st')
    /\ ticks st' = S (ticks st).
Proof.
  unfold ChatInterface.ask_chat, api.chat_query.
  destruct st as [t dr tk]. step_monad.
  match goal with |- context [http w ?n ?r] => destruct (http w n r) as [p|reason] end.
  - unfold Date_now. simpl.
    destruct (ChatInterface.truthy (ChatInterface.answer_of p)) as [a|].
    + do 2 eexists. split; reflexivity.
    + match goal with |- context [ChatInterface.searchWebForInfo ?q w ?s] =>
        destruct (searchWebForInfo_run q w s) as (text & dr' & ->) end.
      simpl. do 2 eexists. split; reflexivity.
  - unfold Date_now. simpl.
    match goal with |- context [ChatInterface.searchWebForInfo ?q w ?s] =>
      destruct (searchWebForInfo_run q w s) as (text & dr' & ->) end.
    simpl. do 2 eexists. split; reflexivity.
Qed.

(** X9: the submit handler never rejects. For blank input it changes
    nothing and sends nothing; for every other input it appends the user's
    message and exactly one reply of the assistant, clears the input field
    and ends with [isLoading] false. *)
Theorem handleSubmit_always_replies (s : ChatInterface.ChatState) (w : World) (st : State) :
  (trim (ChatInterface.inputValue s) = "" ->
   ChatInterface.handleSubmit s w st = (Resolved s, st))
  /\ (trim (ChatInterface.inputValue s) <> "" ->
      exists reply st',
        ChatInterface.handleSubmit s w st
        = (Resolved
             {| ChatInterface.messages :=
                  ChatInterface.messages s
                  ++ [ {| ChatInterface.id := string_of_Z (clock w (ticks st));
                          ChatInterface.content := ChatInterface.inputValue s;
                          ChatInterface.isUser := true |};
                       reply ];
                ChatInterface.inputValue := "";
                ChatInterface.isLoading := false |}, st')
        /\ ChatInterface.isUser reply = false).
Proof.
  unfold ChatInterface.handleSubmit. cbv zeta.
  set (input := ChatInterface.inputValue s).
  split.
  - intros ->. reflexivity.
  - intros Hne. apply String.eqb_neq in Hne. rewrite Hne.
    unfold bind at 1. unfold Date_now at 1.
    unfold bind at 1, try_catch at 1.
    destruct (ChatInterface.truthy (processSpecificQuery input)) as [a|].
    + unfold bind, Date_now, ret. simpl.
      do 2 eexists. rewrite <- app_assoc. split; reflexivity.
    + destruct (test_alpha (trim input)).
      * unfold bind at 1.
        match goal with |- context [ChatInterface.fetchStockData ?n w ?s0] =>
          destruct (fetchStockData_run n w s0) as (d & st1 & new & -> & Ht & Hk & Hn)
        end.
        destruct d as [d|].
        -- unfold bind at 1, Date_now at 1. unfold bind at 1, ChatInterface.lift.
           destruct (ChatInterface.formatStockResponse d) as [text|e].
           ++ unfold ret. simpl.
              do 2 eexists. rewrite <- app_assoc. split; reflexivity.
           ++ unfold bind at 1, console, emit. unfold try_catch, bind.
              match goal with |- context [ChatInterface.searchWebForInfo ?q w ?s0] =>
                destruct (searchWebForInfo_run q w s0) as (text & dr' & ->) end.
              unfold Date_now, ret. simpl.
              do 2 eexists. rewrite <- app_assoc. split; reflexivity.
        -- match goal with |- context [ChatInterface.ask_chat ?l ?i ?s1] =>
             destruct (ask_chat_reply l i s1 w st1) as (text & st2 & -> & Hk2) end.
           unfold ret. simpl.
           do 2 eexists. rewrite <- app_assoc. split; reflexivity.
      * match goal with |- context [ChatInterface.ask_chat ?l ?i ?s1 w ?s0] =>
          destruct (ask_chat_reply l i s1 w s0) as (text & st2 & -> & Hk2) end.
        unfold ret. simpl.
        do 2 eexists. rewrite <- app_assoc. split; reflexivity.
Qed.

Lemma handleSubmit_always_replies_witness :
  exists reply st',
    ChatInterface.handleSubmit (asked "Is gold a safe haven?") offline initial
    = (Resolved
         {| ChatInterface.messages :=
              [ {| ChatInterface.id := "1793595600000";
                   ChatInterface.content := "Is gold a safe haven?";
                   ChatInterface.isUser := true |};
                reply ];
            ChatInterface.inputValue := "";
            ChatInterface.isLoading := false |}, st')
    /\ ChatInterface.isUser reply = false.
Proof.
  apply (proj2 (handleSubmit_always_replies
                  (asked "Is gold a safe haven?") offline initial)).
  discriminate.
Defined.

Lemma drop_trailing_spaces_idempotent (s : string) :
  drop_trailing_spaces (drop_trailing_spaces s) = drop_trailing_spaces s.
Proof.
  induction s as [|c s IH]; simpl; [reflexivity|].
  destruct (drop_trailing_spaces s) as [|c' rest] eqn:E.
  - destruct (is_space c) eqn:Ec; simpl; [reflexivity | now rewrite Ec].
  - simpl in *. rewrite IH. reflexivity.
Qed.

Lemma drop_trailing_spaces_head (c : ascii) (s : string) :
  is_space c = false ->
  exists rest, drop_trailing_spaces (String c s) = String c rest.
Proof.
  intros Hc. simpl. destruct (drop_trailing_spaces s); [rewrite Hc|]; eauto.
Qed.

Lemma drop_spaces_head (s : string) :
  drop_spaces s = "" \/ exists c rest, drop_spaces s = String c rest /\ is_space c = false.
Proof.
  induction s as [|c s IH]; simpl; [now left|].
  destruct (is_space c) eqn:E; [exact IH | right; eauto].
Qed.

Lemma trim_idempotent (s : string) : trim (trim s) = trim s.
Proof.
  unfold trim.
  destruct (drop_spaces_head s) as [->|(c & rest & -> & Hc)]; [reflexivity|].
  destruct (drop_trailing_spaces_head c rest Hc) as [rest' E].
  rewrite E. simpl. rewrite Hc. rewrite <- E.
  apply drop_trailing_spaces_idempotent.
Qed.

Lemma skipn_new_events (t new : list Event) : skipn (length t) (t ++ new) = new.
Proof. now rewrite skipn_app, skipn_all, Nat.sub_diag. Qed.

Section BackendDown.

#[local] Arguments toFixed2 : simpl never.
#[local] Arguments ChatInterface.nonneg : simpl never.
#[local] Arguments ChatInterface.abs_toFixed2 : simpl never.
#[local] Arguments toUpperCase : simpl never.
#[local] Arguments Qfloor : simpl never.

(** X10: with the backend down, a query that looks like a stock name and
    has no canned answer is answered with a quote of the mock data: the query
    in upper case as name and symbol, the random price with two decimals, and
    "up" or "down". The handler sends the look-up and the search and nothing
    else; the chat API is not asked and [searchWebForInfo] is not called. *)
Theorem handleSubmit_backend_down (s : ChatInterface.ChatState) (w : World) (st : State)
        (reason : string) :
  trim (ChatInterface.inputValue s) <> "" ->
  processSpecificQuery (ChatInterface.inputValue s) = None ->
  test_alpha (trim (ChatInterface.inputValue s)) = true ->
  http w (sent st) (stock_request w (trim (ChatInterface.inputValue s)))
  = HttpFail reason ->
  stock_search_failed
    (http w (S (sent st))
          (stock_search_request w (trim (ChatInterface.inputValue s)))) = true ->
  exists s' st' direction percent,
    ChatInterface.handleSubmit s w st = (Resolved s', st')
    /\ (direction = "up" \/ direction = "down")
    /\ option_map ChatInterface.content
         (last (map Some (ChatInterface.messages s')) None)
       = Some (toUpperCase (trim (ChatInterface.inputValue s)) ++ " ("
               ++ toUpperCase (trim (ChatInterface.inputValue s))
               ++ ") is currently trading at ₹"
               ++ toFixed2 (random w (draws st) * 5000 + 500) ++ ", "
               ++ direction ++ " by " ++ percent ++ "%.

Need more details? Ask about: market cap, volume, or recent news.")
    /\ requested_urls (skipn (length (trace st)) (trace st'))
       = [req_url (stock_request w (trim (ChatInterface.inputValue s)));
          req_url (stock_search_request w (trim (ChatInterface.inputValue s)))]
    /\ forallb (fun e => negb (is_web_search e))
               (skipn (length (trace st)) (trace st')) = true.
Proof.
  intros Hne Hcanned Halpha H1 H2.
  apply String.eqb_neq in Hne.
  destruct st as [t dr tk].
  unfold ChatInterface.handleSubmit. cbv zeta.
  rewrite Hne, Hcanned, Halpha. cbn [ChatInterface.truthy].
  unfold ChatInterface.fetchStockData. rewrite trim_idempotent.
  unfold api.getStockInfo, stock_request, stock_search_request in *.
  step_monad. unfold Date_now. step_monad. count_sent. rewrite H1.
  step_monad. count_sent.
  destruct (http w (S (length (filter is_http t))) _)
    as [[| |[|first rest]| |]|reason2];
    try discriminate H2.
  all: unfold Math_random; simpl.
  all: unfold ChatInterface.formatStockResponse; simpl.
  all: do 2 eexists;
    exists (if ChatInterface.nonneg (JStr (toFixed2 (random w (S (S dr)) * 10 - 5)))
            then "up" else "down"),
           (ChatInterface.abs_toFixed2 (JStr (toFixed2 (random w (S (S dr)) * 10 - 5))));
    split; [reflexivity|].
  all: split; [destruct (ChatInterface.nonneg _); auto|].
  all: simpl; split; [rewrite map_app; simpl; rewrite last_last; reflexivity|].
  all: rewrite <- !app_assoc, skipn_app, skipn_all, Nat.sub_diag; simpl.
  all: split; reflexivity.
Qed.

End BackendDown.

Lemma handleSubmit_backend_down_witness :
  exists s' st' direction percent,
    ChatInterface.handleSubmit (asked "XYZ") offline initial = (Resolved s', st')
    /\ (direction = "up" \/ direction = "down")
    /\ option_map ChatInterface.content
         (last (map Some (ChatInterface.messages s')) None)
       = Some (toUpperCase (trim "XYZ") ++ " (" ++ toUpperCase (trim "XYZ")
               ++ ") is currently trading at ₹"
               ++ toFixed2 (random offline 0 * 5000 + 500) ++ ", "
               ++ direction ++ " by " ++ percent ++ "%.

Need more details? Ask about: market cap, volume, or recent news.")
    /\ requested_urls (skipn (length (trace initial)) (trace st'))
       = [req_url (stock_request offline (trim "XYZ"));
          req_url (stock_search_request offline (trim "XYZ"))]
    /\ forallb (fun e => negb (is_web_search e))
               (skipn (length (trace initial)) (trace st')) = true.
Proof.
  apply (handleSubmit_backend_down (asked "XYZ") offline initial "Network Error").
  - discriminate.
  - reflexivity.
  - reflexivity.
  - reflexivity.
  - reflexivity.
Defined.

Lemma ask_chat_urls (label input : string) (s : ChatInterface.ChatState)
      (w : World) (st : State) :
  exists s' st' new,
    ChatInterface.ask_chat label input s w st = (Resolved s', st')
    /\ trace st' = (trace st ++ new)%list
    /\ requested_urls new = [base_url w ++ "/chat/query"].
Proof.
  unfold ChatInterface.ask_chat, api.chat_query.
  destruct st as [t dr tk]. step_monad.
  match goal with |- context [http w ?n ?r] => destruct (http w n r) as [p|reason] end.
  - unfold Date_now. simpl.
    destruct (ChatInterface.truthy (ChatInterface.answer_of p)) as [a|].
    + do 3 eexists. split; [reflexivity|]. split; reflexivity.
    + match goal with |- context [ChatInterface.searchWebForInfo ?q w ?s] =>
        destruct (searchWebForInfo_run q w s) as (text & dr' & ->) end.
      simpl. do 3 eexists. split; [reflexivity|]. simpl.
      rewrite <- app_assoc. split; reflexivity.
  - unfold Date_now. simpl.
    match goal with |- context [ChatInterface.searchWebForInfo ?q w ?s] =>
      destruct (searchWebForInfo_run q w s) as (text & dr' & ->) end.
    simpl. do 3 eexists. split; [reflexivity|]. simpl.
    rewrite <- !app_assoc. split; reflexivity.
Qed.

Lemma stock_urls_not_chat (w : World) (sym : string) :
  req_url (stock_request w sym) <> base_url w ++ "/chat/query"
  /\ req_url (stock_search_request w sym) <> base_url w ++ "/chat/query".
Proof.
  unfold stock_request, stock_search_request. simpl.
  split; intros H; apply append_inj_l in H; discriminate.
Qed.

Lemma fetchStockData_full (stockName : string) (w : World) (st : State) :
  exists p st' new,
    ChatInterface.fetchStockData stockName w st
    = (Resolved (ChatInterface.as_stock p), st')
    /\ trace st' = (trace st ++ new)%list
    /\ ~ In (base_url w ++ "/chat/query") (requested_urls new)
    /\ (p = PEmpty ->
        requested_urls new = [req_url (stock_request w (trim stockName))])
    /\ (p = PEmpty
        <-> http w (sent st) (stock_request w (trim stockName)) = HttpOk PEmpty).
Proof.
  unfold ChatInterface.fetchStockData, try_catch, bind.
  pose proof (getStockInfo_cases (trim stockName) w st) as Hsrc.
  destruct (getStockInfo_trace (trim stockName) w st)
    as (p & st' & new & Heq & Ht & _ & Hu & _).
  rewrite Heq in *. unfold ret. exists p, st', new.
  split; [reflexivity|]. split; [exact Ht|].
  destruct (stock_urls_not_chat w (trim stockName)) as [Hn1 Hn2].
  split.
  { destruct Hu as [-> | ->]; simpl; intuition congruence. }
  revert Hsrc.
  destruct (http w (sent st) (stock_request w (trim stockName))) as [p0|reason].
  - intros H0. injection H0 as H0 Hst. subst p.
    split.
    + intros ->. rewrite Hst in Ht. simpl in Ht.
      apply app_inv_head in Ht. subst new. reflexivity.
    + split; [intros ->; reflexivity | intros [= ->]; reflexivity].
  - destruct (http w (S (sent st)) (stock_search_request w (trim stockName)))
      as [[|d0|[|first rest]| |]|reason2]; simpl; intros [Hp _];
      try match type of Hp with ex _ => destruct Hp as [mock Hp] end;
      injection Hp as ->;
      (split; [discriminate|]; split; intros H; discriminate H).
Qed.

(** X11: for a query that looks like a stock name and has no canned
    answer, the chat API is asked exactly when the look-up of
    [/stocks/:symbol] answered with an empty body; whenever the look-up
    fails, the mock data of [getStockInfo] take its place. *)
Theorem handleSubmit_chat_shadowed (s : ChatInterface.ChatState) (w : World) (st : State) :
  trim (ChatInterface.inputValue s) <> "" ->
  processSpecificQuery (ChatInterface.inputValue s) = None ->
  test_alpha (trim (ChatInterface.inputValue s)) = true ->
  In (base_url w ++ "/chat/query")
     (requested_urls
        (skipn (length (trace st))
               (trace (snd (ChatInterface.handleSubmit s w st)))))
  <-> http w (sent st) (stock_request w (trim (ChatInterface.inputValue s)))
      = HttpOk PEmpty.
Proof.
  intros Hne Hcanned Halpha.
  apply String.eqb_neq in Hne.
  unfold ChatInterface.handleSubmit. cbv zeta.
  rewrite Hne, Hcanned, Halpha. cbn [ChatInterface.truthy].
  unfold bind at 1, Date_now at 1.
  unfold bind at 1, try_catch at 1. unfold bind at 1.
  match goal with |- context [ChatInterface.fetchStockData ?n w ?s0] =>
    destruct (fetchStockData_full n w s0)
      as (p & st1 & new & -> & Ht & Hnochat & Hurl & Hempty)
  end.
  rewrite trim_idempotent in Hempty. simpl in Ht.
  change (sent {| trace := trace st; draws := draws st; ticks := S (ticks st) |})
    with (sent st) in Hempty.
  rewrite <- Hempty.
  destruct p as [|d|l|fs fd|c]; cbn [ChatInterface.as_stock].
  1: { match goal with |- context [ChatInterface.ask_chat ?l ?i ?s1] =>
         destruct (ask_chat_urls l i s1 w st1)
           as (s2 & st2 & new2 & -> & Ht2 & Hu2) end.
       unfold ret. simpl. rewrite Ht2, Ht, <- app_assoc, skipn_new_events.
       unfold requested_urls in *. rewrite flat_map_app, Hu2.
       split; [reflexivity|]. intros _. apply in_or_app. right. now left. }
  all: unfold bind at 1, Date_now at 1; unfold bind at 1, ChatInterface.lift;
    match goal with
    | |- context [ChatInterface.formatStockResponse ?d] =>
        destruct (ChatInterface.formatStockResponse d) as [text|e]
    end.
  all: try (unfold ret; simpl; rewrite Ht, skipn_new_events;
            split; [intros H; now apply Hnochat in H | discriminate]).
  all: unfold bind at 1, console, emit; unfold try_catch, bind;
    match goal with |- context [ChatInterface.searchWebForInfo ?q ?w0 ?s0] =>
      destruct (searchWebForInfo_run q w0 s0) as (text & dr' & ->) end;
    unfold Date_now, ret; simpl;
    rewrite Ht, <- !app_assoc, skipn_new_events;
    unfold requested_urls in *; rewrite flat_map_app; simpl; rewrite app_nil_r;
    (split; [intros H; now apply Hnochat in H | discriminate]).
Qed.

Lemma handleSubmit_chat_shadowed_witness :
  In (base_url silent ++ "/chat/query")
     (requested_urls
        (skipn (length (trace initial))
               (trace (snd (ChatInterface.handleSubmit (asked "XYZ") silent initial))))).
Proof.
  apply (handleSubmit_chat_shadowed (asked "XYZ") silent initial).
  - discriminate.
  - reflexivity.
  - reflexivity.
  - reflexivity.
Defined.

(** ** More on the fund browser *)

(** X12: [fetchFunds] never rejects and never leaves the list empty; it
    ends with [loading] false and keeps the search term and the filter. When
    [getAllFunds] fell back, the two default funds are shown without a
    message. Otherwise: an empty list gives the default funds with "No fund
    data available", a list gives that list, with the fall-back warning
    exactly when it has five funds of which the first two are "HDFC Top 100
    Fund" and "Nifty BeES", and data that are not a list give the default
    funds with the fall-back warning. *)
Theorem fetchFunds_outcomes (s : Funds.FundsState) (w : World) (st : State) :
  exists s' st',
    Funds.fetchFunds s w st = (Resolved s', st')
    /\ Funds.loading s' = false
    /\ Funds.funds s' <> []
    /\ Funds.searchTerm s' = Funds.searchTerm s
    /\ Funds.filter s' = Funds.filter s
    /\ if funds_unavailable (http w (sent st) (funds_request w)) then
         Funds.funds s' = Funds.default_funds /\ Funds.error s' = None
       else
         match http w (sent st) (funds_request w) with
         | HttpOk (PFunds _ (Some [])) =>
             Funds.funds s' = Funds.default_funds
             /\ Funds.error s'
                = Some "No fund data available. Using default examples."
         | HttpOk (PFunds _ (Some data)) =>
             Funds.funds s' = data
             /\ Funds.error s'
                = if Funds.is_server_fallback data
                  then Some "Failed to load fund data. Using fallback data."
                  else None
         | _ =>
             Funds.funds s' = Funds.default_funds
             /\ Funds.error s'
                = Some "Failed to load fund data. Using fallback data."
         end.
Proof.
  unfold Funds.fetchFunds. cbv zeta.
  unfold bind at 1, try_catch at 1, bind at 1.
  rewrite getAllFunds_run. cbv zeta.
  destruct (http w (sent st) (funds_request w)) as [[| | |fs fd|]|reason];
    try (simpl; do 2 eexists; split; [reflexivity|]; simpl;
         repeat split; discriminate).
  simpl. destruct (fs =? "success") eqn:E; simpl.
  - rewrite E.
    destruct fd as [[|f0 data]|]; simpl.
    + do 2 eexists. split; [reflexivity|]. simpl. repeat split; discriminate.
    + destruct (Funds.is_server_fallback (f0 :: data)) eqn:Ef; simpl;
        (do 2 eexists; split; [reflexivity|]; simpl; rewrite ?Ef;
         repeat split; discriminate).
    + do 2 eexists. split; [reflexivity|]. simpl. repeat split; discriminate.
  - do 2 eexists. split; [reflexivity|]. simpl. repeat split; discriminate.
Qed.

Lemma includes_empty (s : string) : includes s "" = true.
Proof. destruct s; reflexivity. Qed.

(** X13: for one search term, the funds shown under "mf" and under "etf"
    are disjoint and together are the funds shown under "all"; and with an
    empty search term "all" shows every fund. *)
Theorem filteredFunds_partition (s : Funds.FundsState) :
  (length (shown_under Funds.mf s) + length (shown_under Funds.etf s)
   = length (shown_under Funds.all s))%nat
  /\ (forall fund, In fund (shown_under Funds.all s)
                   <-> In fund (shown_under Funds.mf s)
                       \/ In fund (shown_under Funds.etf s))
  /\ (forall fund, ~ (In fund (shown_under Funds.mf s)
                      /\ In fund (shown_under Funds.etf s)))
  /\ (Funds.searchTerm s = "" -> shown_under Funds.all s = Funds.funds s).
Proof.
  unfold shown_under, Funds.filteredFunds. simpl.
  split; [|split; [|split]].
  - induction (Funds.funds s) as [|f l IH]; simpl; [reflexivity|].
    unfold Funds.matchesFilter in *. simpl in *.
    destruct (Funds.matchesSearch (Funds.searchTerm s) f), (fund_type f);
      simpl; lia.
  - intros fund. rewrite !filter_In. unfold Funds.matchesFilter. simpl.
    destruct (fund_type fund); simpl; rewrite ?andb_true_r, ?andb_false_r;
      intuition discriminate.
  - intros fund [H1 H2]. rewrite !filter_In in *.
    unfold Funds.matchesFilter in *. simpl in *.
    destruct (fund_type fund); rewrite ?andb_false_r in *;
      intuition discriminate.
  - intros ->. induction (Funds.funds s) as [|f l IH]; simpl; [reflexivity|].
    unfold Funds.matchesSearch at 1. simpl. rewrite includes_empty. simpl.
    now rewrite IH.
Qed.

Lemma filteredFunds_partition_witness :
  shown_under Funds.all
    {| Funds.funds := [api.hdfc_top_100; api.nifty_bees];
       Funds.searchTerm := ""; Funds.loading := false;
       Funds.filter := Funds.etf; Funds.error := None |}
  = [api.hdfc_top_100; api.nifty_bees].
Proof.
  apply (proj2 (proj2 (proj2
           (filteredFunds_partition
              {| Funds.funds := [api.hdfc_top_100; api.nifty_bees];
                 Funds.searchTerm := ""; Funds.loading := false;
                 Funds.filter := Funds.etf; Funds.error := None |})))).
  reflexivity.
Defined.

(** ** More on the dashboard *)

Lemma Qmax_upper (a b c : Q) : a <= c -> b <= c -> Qmax a b <= c.
Proof. unfold Qmax. destruct (Qle_bool a b); auto. Qed.

Lemma generate_from_bounded (zone : Dashboard.TimeZone) (i : nat) (today : Z)
      (basePrice : Q) (w : World) :
  random_ok w -> 0 < basePrice ->
  forall (currentPrice : Q) (st : State) (k : Z),
    (0 <= k)%Z ->
    currentPrice <= basePrice + inject_Z k * (0.0156 * basePrice) ->
    exists points st',
      Dashboard.generate_from zone i today basePrice currentPrice w st
      = (Resolved points, st')
      /\ draws st' = (draws st + S i)%nat
      /\ ticks st' = ticks st
      /\ trace st' = trace st
      /\ Forall (fun p => Dashboard.price p
                          <= basePrice
                             + inject_Z (k + Z.of_nat (S i)) * (0.0156 * basePrice))
                points.
Proof.
  intros Hrand Hbase.
  induction i as [|j IH]; intros currentPrice st k Hk Hcur.
  - simpl. unfold bind, Math_random, ret. simpl.
    do 2 eexists. split; [reflexivity|]. simpl.
    split; [lia|]. split; [reflexivity|]. split; [reflexivity|].
    constructor; [|constructor]. simpl.
    destruct (Hrand (draws st)) as [H0 H1].
    apply Qmax_upper.
    + rewrite inject_Z_plus. change (inject_Z 1) with 1. nra.
    + rewrite inject_Z_plus. change (inject_Z 1) with 1.
      assert (0 <= inject_Z k) by (rewrite <- (Zle_Qle 0); exact Hk). nra.
  - unfold Dashboard.generate_from; fold Dashboard.generate_from.
    unfold bind at 1, Math_random at 1. cbv zeta.
    unfold bind at 1.
    destruct (Hrand (draws st)) as [H0 H1].
    assert (Hk1 : 0 <= inject_Z k) by (rewrite <- (Zle_Qle 0); exact Hk).
    assert (Hstep : currentPrice + (random w (draws st) - 0.48) * (basePrice * 0.03)
                    <= basePrice + inject_Z (k + 1) * (0.0156 * basePrice)).
    { rewrite inject_Z_plus. change (inject_Z 1) with 1. nra. }
    match goal with
    | |- context [Dashboard.generate_from zone j today basePrice ?c w ?s] =>
      destruct (IH c s (k + 1)%Z ltac:(lia) Hstep)
        as (points & st1 & -> & Hd & Htk & Htr & Hprices) end.
    unfold ret. do 2 eexists. split; [reflexivity|]. simpl in Hd, Htk, Htr.
    split; [lia|]. split; [exact Htk|]. split; [exact Htr|].
    assert (Hz : inject_Z (k + 1) <= inject_Z (k + Z.of_nat (S (S j))))
      by (rewrite <- Zle_Qle; lia).
    assert (Hz0 : 0 <= inject_Z (k + Z.of_nat (S (S j))))
      by (rewrite <- (Zle_Qle 0); lia).
    constructor.
    + cbn [Dashboard.price]. apply Qmax_upper.
      * eapply Qle_trans; [exact Hstep|]. nra.
      * nra.
    + eapply Forall_impl; [|exact Hprices]. intros p Hp. cbn beta in Hp.
      eapply Qle_trans; [exact Hp|].
      replace (k + 1 + Z.of_nat (S j))%Z with (k + Z.of_nat (S (S j)))%Z by lia.
      apply Qle_refl.
Qed.

(** X14: for a [basePrice] of at least 1, every price that
    [generateDummyHistoricalData] returns is at most one and a half times
    [basePrice], in every time zone: each of the 31 steps adds less than
    0.0156 times [basePrice], which leaves room for the rounding of the
    sums. The function draws 31 random numbers, reads the clock once and
    sends nothing. *)
Theorem generateDummyHistoricalData_ceiling
        (zone : Dashboard.TimeZone) (basePrice : Q) (w : World) (st : State) :
  random_ok w -> 1 <= basePrice ->
  exists points st',
    Dashboard.generateDummyHistoricalData zone basePrice w st
    = (Resolved points, st')
    /\ draws st' = (draws st + 31)%nat
    /\ ticks st' = S (ticks st)
    /\ trace st' = trace st
    /\ Forall (fun p => Dashboard.price p <= 1.5 * basePrice) points.
Proof.
  intros Hrand Hone.
  assert (Hbase : 0 < basePrice) by lra.
  unfold Dashboard.generateDummyHistoricalData.
  unfold bind, Date_now.
  match goal with
  | |- context [Dashboard.generate_from zone 30 ?t basePrice ?c w ?s] =>
    destruct (generate_from_bounded zone 30 t basePrice w Hrand Hbase c s 0%Z
                ltac:(lia) ltac:(change (inject_Z 0) with 0; lra))
      as (points & st1 & -> & Hd & Htk & Htr & Hprices) end.
  do 2 eexists. split; [reflexivity|]. simpl in Hd, Htk, Htr.
  split; [exact Hd|]. split; [exact Htk|]. split; [exact Htr|].
  eapply Forall_impl; [|exact Hprices]. intros p Hp. cbn beta in Hp.
  eapply Qle_trans; [exact Hp|].
  change (inject_Z (0 + Z.of_nat 31)) with 31. lra.
Qed.

Lemma generateDummyHistoricalData_ceiling_witness :
  exists points st',
    Dashboard.generateDummyHistoricalData london 1000 offline initial
    = (Resolved points, st')
    /\ draws st' = (draws initial + 31)%nat
    /\ ticks st' = S (ticks initial)
    /\ trace st' = trace initial
    /\ Forall (fun p => Dashboard.price p <= 1.5 * 1000) points.
Proof.
  apply (generateDummyHistoricalData_ceiling london 1000 offline initial).
  - intros n. simpl. split; [discriminate | reflexivity].
  - discriminate.
Defined.

Lemma type_eqb_eq (a b : Instruments.InstrumentType) :
  Instruments.type_eqb a b = true <-> a = b.
Proof. destruct a, b; simpl; split; intros H; congruence. Qed.

Lemma in_firstn {A} (n : nat) (l : list A) (x : A) : In x (firstn n l) -> In x l.
Proof.
  intros H. rewrite <- (firstn_skipn n l). apply in_or_app. now left.
Qed.

Lemma firstn_short {A} (n : nat) (l : list A) :
  (length (firstn n l) < n)%nat -> firstn n l = l.
Proof.
  intros H. apply firstn_all2. rewrite length_firstn in H. lia.
Qed.

(** X15: while a search has results, the dashboard shows the results,
    whatever the type filter. Otherwise it shows at most six instruments, all
    from the list and of the selected type, and every such instrument when
    fewer than six are shown. *)
Theorem instrumentsToDisplay_shown
        (searchPerformed : bool)
        (searchResults allInstruments : list Instruments.FinancialInstrument)
        (f : Instruments.TypeFilter) :
  (searchPerformed = true -> searchResults <> [] ->
   Instruments.instrumentsToDisplay searchPerformed searchResults allInstruments f
   = searchResults)
  /\ (searchPerformed = false \/ searchResults = [] ->
      (length (Instruments.instrumentsToDisplay
                 searchPerformed searchResults allInstruments f) <= 6)%nat
      /\ (forall i,
            In i (Instruments.instrumentsToDisplay
                    searchPerformed searchResults allInstruments f) ->
            In i allInstruments /\ passes f i)
      /\ (forall i,
            In i allInstruments -> passes f i ->
            (length (Instruments.instrumentsToDisplay
                       searchPerformed searchResults allInstruments f) < 6)%nat ->
            In i (Instruments.instrumentsToDisplay
                    searchPerformed searchResults allInstruments f))).
Proof.
  unfold Instruments.instrumentsToDisplay. split.
  - intros -> Hne. destruct searchResults; [contradiction | reflexivity].
  - intros Hno.
    assert (E : searchPerformed && (0 <? length searchResults)%nat = false).
    { destruct Hno as [-> | ->]; [reflexivity | apply andb_false_r]. }
    rewrite E. clear E Hno.
    destruct f as [|t]; cbv iota.
    + split; [apply firstn_le_length|]. split.
      * intros i Hi. split; [|exact I]. now apply in_firstn in Hi.
      * intros i Hi _ Hlt. now rewrite (firstn_short _ _ Hlt).
    + split; [apply firstn_le_length|]. split.
      * intros i Hi. apply in_firstn in Hi. apply filter_In in Hi as [Hi Ht].
        split; [exact Hi | now apply type_eqb_eq].
      * intros i Hi Ht Hlt. rewrite (firstn_short _ _ Hlt).
        apply filter_In. split; [exact Hi | now apply type_eqb_eq].
Qed.

Lemma instrumentsToDisplay_shown_witness :
  Instruments.instrumentsToDisplay
    true [tech_etf] allInstruments (Instruments.only Instruments.stock)
  = [tech_etf]
  /\ (length (Instruments.instrumentsToDisplay
                false [] allInstruments Instruments.all) <= 6)%nat
  /\ (forall i,
        In i (Instruments.instrumentsToDisplay
                false [] allInstruments Instruments.all) ->
        In i allInstruments /\ passes Instruments.all i)
  /\ (forall i,
        In i allInstruments -> passes (Instruments.only Instruments.etf) i ->
        In i (Instruments.instrumentsToDisplay
                false [] allInstruments (Instruments.only Instruments.etf))).
Proof.
  split; [|split; [|split]].
  - apply (proj1 (instrumentsToDisplay_shown
                    true [tech_etf] allInstruments
                    (Instruments.only Instruments.stock)));
      [reflexivity | discriminate].
  - apply (proj2 (instrumentsToDisplay_shown
                    false [] allInstruments Instruments.all)).
    left. reflexivity.
  - apply (proj2 (instrumentsToDisplay_shown
                    false [] allInstruments Instruments.all)).
    left. reflexivity.
  - intros i Hin Hetf.
    apply (proj2 (instrumentsToDisplay_shown
                    false [] allInstruments (Instruments.only Instruments.etf)));
      [left; reflexivity | exact Hin | exact Hetf | vm_compute; lia].
Defined.

(** ** The chat box *)

Lemma set_last_response_snoc (result : Payload) (l : list Chat.Conversation)
      (c : Chat.Conversation) :
  Chat.set_last_response result (l ++ [c])%list
  = Resolved (l ++ [{| Chat.conv_query := Chat.conv_query c;
                       Chat.conv_response := Some result |}])%list.
Proof.
  induction l as [|a l IH]; [reflexivity|].
  change ((a :: l) ++ [c])%list with (a :: (l ++ [c]))%list.
  destruct (l ++ [c])%list as [|b rest] eqn:E.
  - destruct l; discriminate.
  - cbn [Chat.set_last_response]. cbn [Chat.set_last_response] in IH.
    rewrite IH. reflexivity.
Qed.

(** X16: for a non-blank question the chat box sends one request, to
    [/chat/query], and ends with [loading] false. When the request succeeds,
    the question is the last entry of the history together with the
    response, the response is stored and the input is cleared. When it
    fails, the question stays in the history without a response, the input is
    kept and the error message is that of the request. *)
Theorem Chat_handleSubmit_outcomes (s : Chat.ChatBoxState) (w : World) (st : State) :
  trim (Chat.query s) <> "" ->
  exists s' st',
    Chat.handleSubmit s w st = (Resolved s', st')
    /\ Chat.loading s' = false
    /\ Chat.sessionId s' = Chat.sessionId s
    /\ requested_urls (skipn (length (trace st)) (trace st'))
       = [base_url w ++ "/chat/query"]
    /\ match http w (sent st)
               {| req_method := POST;
                  req_url := base_url w ++ "/chat/query";
                  req_body := ChatBody (Chat.query s) (Chat.sessionId s) |} with
       | HttpOk result =>
           Chat.conversations s'
           = (Chat.conversations s
              ++ [{| Chat.conv_query := Chat.query s;
                     Chat.conv_response := Some result |}])%list
           /\ Chat.response s' = Some result
           /\ Chat.query s' = ""
           /\ Chat.error s' = None
       | HttpFail reason =>
           Chat.conversations s'
           = (Chat.conversations s
              ++ [{| Chat.conv_query := Chat.query s;
                     Chat.conv_response := None |}])%list
           /\ Chat.response s' = Chat.response s
           /\ Chat.query s' = Chat.query s
           /\ Chat.error s' = Some reason
       end.
Proof.
  intros Hne. apply String.eqb_neq in Hne.
  unfold Chat.handleSubmit. rewrite Hne. cbv zeta.
  unfold api.chat_query. destruct st as [t dr tk]. step_monad.
  destruct (http w (sent _) _) as [result|reason]; simpl.
  - rewrite set_last_response_snoc.
    do 2 eexists. split; [reflexivity|]. simpl.
    rewrite skipn_app, skipn_all, Nat.sub_diag. simpl. repeat split.
  - do 2 eexists. split; [reflexivity|]. simpl.
    rewrite skipn_app, skipn_all, Nat.sub_diag. simpl. repeat split.
Qed.

Lemma Chat_handleSubmit_outcomes_witness :
  exists s' st',
    Chat.handleSubmit (typed "How is TCS doing?") offline initial = (Resolved s', st')
    /\ Chat.conversations s'
       = [{| Chat.conv_query := "How is TCS doing?"; Chat.conv_response := None |}]
    /\ Chat.query s' = "How is TCS doing?"
    /\ Chat.error s' = Some "Network Error".
Proof.
  destruct (Chat_handleSubmit_outcomes (typed "How is TCS doing?") offline initial)
    as (s' & st' & Heq & _ & _ & _ & Hc & _ & Hq & He).
  - discriminate.
  - exists s', st'. split; [exact Heq|]. split; [exact Hc|].
    split; [exact Hq | exact He].
Defined.

(** ** The mock data *)

(** X17: [getAIExplanation] answers with one of the six mock responses,
    never with the empty string: with the default response when no key
    occurs in the query, and also whenever the query contains "default", the
    first key; the letter case of the query does not matter. *)
Theorem getAIExplanation_answers (query : string) :
  In (MockData.getAIExplanation query) (map snd MockData.mockChatResponses)
  /\ MockData.getAIExplanation query <> ""
  /\ ((forall key, In key (map fst MockData.mockChatResponses) ->
                   includes (toLowerCase query) key = false) ->
      MockData.getAIExplanation query = MockData.default_response)
  /\ (includes (toLowerCase query) "default" = true ->
      MockData.getAIExplanation query = MockData.default_response)
  /\ MockData.getAIExplanation (toUpperCase query) = MockData.getAIExplanation query.
Proof.
  assert (Hin : In (MockData.getAIExplanation query)
                   (map snd MockData.mockChatResponses)).
  { unfold MockData.getAIExplanation. cbv zeta.
    destruct (find _ MockData.mockChatResponses) as [kv|] eqn:E.
    - apply find_some in E as [E _]. now apply in_map.
    - left. reflexivity. }
  split; [exact Hin|]. split.
  { simpl in Hin. intros E. rewrite E in Hin.
    repeat (destruct Hin as [Hin|Hin]; [discriminate Hin|]). exact Hin. }
  split; [|split].
  - intros Hnone. unfold MockData.getAIExplanation. cbv zeta.
    destruct (find _ MockData.mockChatResponses) as [kv|] eqn:E; [|reflexivity].
    apply find_some in E as [E1 E2]. exfalso.
    simpl in E1.
    repeat (destruct E1 as [<-|E1];
            [ simpl in E2; rewrite Hnone in E2;
              [discriminate | simpl; tauto] |]).
    destruct E1.
  - intros H. unfold MockData.getAIExplanation. cbv zeta.
    simpl. change (toLowerCase "default") with "default". now rewrite H.
  - unfold MockData.getAIExplanation. now rewrite toLowerCase_toUpperCase.
Qed.

Lemma getAIExplanation_answers_witness :
  MockData.getAIExplanation "What is the DEFAULT risk of HDFC Bank?"
  = MockData.default_response.
Proof.
  apply (proj1 (proj2 (proj2 (proj2
           (getAIExplanation_answers "What is the DEFAULT risk of HDFC Bank?"))))).
  reflexivity.
Defined.

Lemma arr_includes_In (l : list string) (x : string) :
  arr_includes l x = true <-> In x l.
Proof.
  unfold arr_includes. rewrite existsb_exists. split.
  - intros (y & Hy & E). apply String.eqb_eq in E. now subst.
  - intros H. exists x. split; [exact H | apply String.eqb_refl].
Qed.

(** X18: [getRelevantNews] returns the news items whose [relevantStocks]
    name the symbol, and none exactly when the symbol is not one of HDFC,
    RELIANCE, INFY, TATAMOTORS, TECHETF and JOTHYLABS (so none for
    ICICIBANK or NIFTYBEES). *)
Theorem getRelevantNews_relevant (today : Z) (sym : string) :
  (forall news, In news (MockData.getRelevantNews today sym)
                <-> In news (MockData.mockNews today)
                    /\ In sym (MockData.relevantStocks news))
  /\ (MockData.getRelevantNews today sym = [] <-> ~ In sym covered_symbols).
Proof.
  split.
  - intros news. unfold MockData.getRelevantNews.
    now rewrite filter_In, arr_includes_In.
  - split.
    + intros Hnil Hin. unfold covered_symbols in Hin. simpl in Hin.
      repeat (destruct Hin as [<-|Hin]; [discriminate Hnil|]). exact Hin.
    + intros Hout. unfold MockData.getRelevantNews, MockData.mockNews.
      unfold covered_symbols in Hout. simpl in Hout.
      assert (E : forall k, In k covered_symbols -> (sym =? k) = false).
      { intros k Hk. apply String.eqb_neq. intros ->. apply Hout. exact Hk. }
      unfold covered_symbols in E.
      cbn [List.filter arr_includes existsb MockData.relevantStocks].
      rewrite !E by (simpl; tauto). reflexivity.
Qed.

Lemma lookup_In {A} (key : string) (table : list (string * A)) (v : A) :
  ChatInterface.lookup key table = Some v -> In v (map snd table).
Proof.
  induction table as [|[k a] table IH]; simpl; [discriminate|].
  destruct (k =? key); [intros [= ->]; now left | auto].
Qed.

(** X19: [getMockStockData] returns only entries of its table, finds every
    entry by its symbol in any letter case, and does not depend on the letter
    case of the name. *)
Theorem getMockStockData_lookup (stockName : string) :
  (forall d, ChatInterface.getMockStockData stockName = Some d ->
             In d (map snd ChatInterface.mockStocks))
  /\ (forall key d, In (key, d) ChatInterface.mockStocks ->
                    toUpperCase stockName = key ->
                    ChatInterface.getMockStockData stockName = Some d)
  /\ ChatInterface.getMockStockData (toUpperCase stockName)
     = ChatInterface.getMockStockData stockName.
Proof.
  split; [|split].
  - intros d. unfold ChatInterface.getMockStockData. cbv zeta.
    destruct (ChatInterface.lookup _ ChatInterface.mockStocks) as [d0|] eqn:E1.
    + intros [= <-]. now apply lookup_In in E1.
    + destruct (find _ ChatInterface.mockStocks) as [kv|] eqn:E2.
      * intros [= <-]. apply find_some in E2 as [E2 _]. now apply in_map.
      * repeat match goal with
               | |- (if ?c then _ else _) = _ -> _ => destruct c
               end;
          try discriminate; apply lookup_In.
  - intros key d Hin Hk. unfold ChatInterface.getMockStockData. cbv zeta.
    rewrite Hk. simpl in Hin.
    repeat (destruct Hin as [[= <- <-]|Hin]; [reflexivity|]). destruct Hin.
  - unfold ChatInterface.getMockStockData. cbv zeta.
    now rewrite toUpperCase_idempotent.
Qed.

Lemma getMockStockData_lookup_witness :
  ChatInterface.getMockStockData "titan"
  = Some (ChatInterface.stock "TITAN" "Titan Company Limited" 3287.6 42.8 1.32
                              876540 292000000000 "Consumer Goods").
Proof.
  apply (proj1 (proj2 (getMockStockData_lookup "titan")) "TITAN").
  - unfold ChatInterface.mockStocks.
    do 12 right. left. reflexivity.
  - reflexivity.
Defined.
